(** * Load profile (catalogue method): validator and aggregator

    A shallow embedding of the computational core of the load-profile
    application: [data_validator.py], [energy_calculator.py] and the
    calculation steps of [load_profile_app.py].

    Numbers.  The pandas columns hold float64 values; they are modelled by
    exact rationals ([Q]), so every statement below is about the real-number
    reading of the formulas and equality of numbers is [Qeq] ([==]).  The
    [Quantity] column is an INTEGER column and is modelled by [Z].

    Tables.  A DataFrame is a list of rows.  Every row of a frame carries the
    twelve period columns of the database schema, so a row's schedule is a
    total map from the period labels to booleans. *)

From Stdlib Require Import List String Ascii Bool ZArith QArith Qround Qminmax.
From Stdlib Require Import Lqa Lia Setoid Morphisms.
From Stdlib Require Import DecimalString Permutation.
Import ListNotations.

Open Scope Q_scope.

(** ** database_manager.py: the twelve 2-hour periods *)

(** The column labels ["00:00-02:00"] ... ["22:00-00:00"]. *)
Inductive Period : Type :=
  | P00 | P02 | P04 | P06 | P08 | P10 | P12 | P14 | P16 | P18 | P20 | P22.

Definition start_hour (p : Period) : nat :=
  match p with
  | P00 => 0 | P02 => 2 | P04 => 4 | P06 => 6 | P08 => 8 | P10 => 10
  | P12 => 12 | P14 => 14 | P16 => 16 | P18 => 18 | P20 => 20 | P22 => 22
  end%nat.

(** [end = (i + 2) % 24]: the last period wraps to midnight. *)
Definition end_hour (p : Period) : nat := ((start_hour p + 2) mod 24)%nat.

(** [_make_time_periods]: [for i in range(0, 24, 2)]. *)
Definition _make_time_periods : list Period :=
  [P00; P02; P04; P06; P08; P10; P12; P14; P16; P18; P20; P22].

(** [DatabaseManager.time_periods], shared by the calculator and the app. *)
Definition time_periods : list Period := _make_time_periods.

(** Position of a period label among the columns. *)
Definition period_index (p : Period) : nat := Nat.div2 (start_hour p).

(** ** The appliance table *)

Record Row : Type := mkRow {
  Appliance : string;
  Quantity : Z;
  Power : Q;                 (* "Power (W)" *)
  DutyCycle : Q;             (* "Duty Cycle (%)" *)
  PowerFactor : Q;           (* "Power Factor" *)
  UseTime : Q;               (* "Use Time (%)" *)
  On : Period -> bool;       (* the twelve check-box columns, [row[t]] *)
  Priority : string;
  Room : string;
  ApparentPower : Q;         (* "Apparent Power (VA)" *)
  TotalDailyEnergy : Q       (* "Total Daily Energy (Wh)" *)
}.

Definition DataFrame : Type := list Row.

(** A schedule given as the list of its check-boxes, in column order. *)
Definition schedule (boxes : list bool) : Period -> bool :=
  fun t => nth (period_index t) boxes false.

(** ** data_validator.py *)

(** [Series.clip(lower, upper)] with scalar bounds: values below [lower]
    become [lower], values above [upper] become [upper]; [upper = None]
    leaves the column unbounded above. *)
Definition clip (x : Q) (lower : Q) (upper : option Q) : Q :=
  let y := if Qlt_le_dec x lower then lower else x in
  match upper with
  | Some u => if Qlt_le_dec u x then u else y
  | None => y
  end.

(** [clip(0)] on the integer column. *)
Definition clipZ (x : Z) (lower : Z) : Z :=
  if (x <? lower)%Z then lower else x.

Definition validate_row (r : Row) : Row :=
  {| Appliance := Appliance r;
     Quantity := clipZ (Quantity r) 0;
     Power := clip (Power r) 0 None;
     DutyCycle := clip (DutyCycle r) 0 (Some 100);
     PowerFactor := clip (PowerFactor r) (1 # 100) (Some 1);
     UseTime := clip (UseTime r) 0 (Some 100);
     On := On r;
     Priority := Priority r;
     Room := Room r;
     ApparentPower := ApparentPower r;
     TotalDailyEnergy := TotalDailyEnergy r |}.

(** [DataValidator.validate_df]: works on a copy, column by column. *)
Definition validate_df (df : DataFrame) : DataFrame := map validate_row df.

(** ** Rounding to one decimal *)

(** Round to the nearest integer, halves to the even neighbour (numpy
    [rint]). *)
Definition rint (x : Q) : Z :=
  let f := Qfloor x in
  match Qcompare (x - inject_Z f) (1 # 2) with
  | Lt => f
  | Gt => (f + 1)%Z
  | Eq => if Z.even f then f else (f + 1)%Z
  end.

(** [Series.round(decimals)]: scale, round to an integer, scale back. *)
Definition round_ (x : Q) (decimals : positive) : Q :=
  let scale := inject_Z (Z.pow_pos 10 decimals) in
  inject_Z (rint (x * scale)) / scale.

(** [load_profile_app.py], line 61:
    [df["Apparent Power (VA)"] = (df["Power (W)"] / df["Power Factor"]).round(1)]. *)
Definition with_apparent_power (r : Row) : Row :=
  {| Appliance := Appliance r;
     Quantity := Quantity r;
     Power := Power r;
     DutyCycle := DutyCycle r;
     PowerFactor := PowerFactor r;
     UseTime := UseTime r;
     On := On r;
     Priority := Priority r;
     Room := Room r;
     ApparentPower := round_ (Power r / PowerFactor r) 1;
     TotalDailyEnergy := TotalDailyEnergy r |}.

(** Lines 60-61 of [LoadProfileApp.run]: the validated batch handed to the
    aggregator. *)
Definition validated (edited_df : DataFrame) : DataFrame :=
  map with_apparent_power (validate_df edited_df).

(** ** energy_calculator.py *)

(** [int(is_on)]. *)
Definition int (b : bool) : Z := if b then 1%Z else 0%Z.

(** A row of a derived table: one value per period, in column order. *)
Definition Series : Type := list Q.

(** The value a series holds under the label [t]. *)
Definition at_period (s : Series) (t : Period) : option Q :=
  nth_error s (period_index t).

(** Errors (a raised exception) are [None]. *)
Definition bind {A B : Type} (m : option A) (k : A -> option B) : option B :=
  match m with
  | Some a => k a
  | None => None
  end.

Notation "x <- m ;; k" := (bind m (fun x => k))
  (at level 61, m at next level, right associativity).

(** [sum()] of a column of numbers. *)
Definition Qsum (l : list Q) : Q := fold_right Qplus 0 l.

Fixpoint zip_with {A B C : Type} (f : A -> B -> C) (l : list A) (l' : list B)
  : list C :=
  match l, l' with
  | a :: t, b :: t' => f a b :: zip_with f t t'
  | _, _ => []
  end.

(** [m.sum(axis=0)] for a matrix with [ncols] columns: the column sums; a
    matrix without rows sums to zeros. *)
Fixpoint sum_axis0 (ncols : nat) (m : list (list Q)) : list Q :=
  match m with
  | [] => repeat 0 ncols
  | cells :: rest => zip_with Qplus cells (sum_axis0 ncols rest)
  end.

(** [v.max()]: numpy raises [ValueError] on a zero-size array. *)
Definition amax (v : list Q) : option Q :=
  match v with
  | [] => None
  | x :: xs => Some (fold_left Qmax xs x)
  end.

(** [ints * column.reshape(-1, 1)]: every row of the integer matrix is scaled
    by the entry of the column on its line. *)
Definition times_column (ints : list (list Z)) (column : list Q)
  : list (list Q) :=
  zip_with (fun cells w => map (fun c => inject_Z c * w) cells) ints column.

Section EnergyCalculator.

(** [self.time_periods]. *)
Variable tps : list Period.

Definition compute_energy (row : Row) : Series :=
  let duty := DutyCycle row / 100 in
  let use_time := UseTime row / 100 in
  let power := Power row in
  let qty := Quantity row in
  map (fun t =>
         let is_on := On row t in
         inject_Z (2 * qty) * power * duty * use_time * inject_Z (int is_on))
      tps.

Definition compute_average_power (row : Row) : Series :=
  let qty := Quantity row in
  let power := Power row in
  map (fun t =>
         let is_on := On row t in
         inject_Z qty * power * inject_Z (int is_on))
      tps.

Definition compute_instantaneous_power (row : Row) : Series :=
  compute_average_power row.

(** [df[self.time_periods].astype(int).values]. *)
Definition schedule_values (df : DataFrame) : list (list Z) :=
  map (fun r => map (fun t => int (On r t)) tps) df.

(** [(ints * weights.reshape(-1, 1)).sum(axis=0).max()], the shape shared by
    every peak computation of the program. *)
Definition peak_of (df : DataFrame) (weight : Row -> Q) : option Q :=
  amax (sum_axis0 (List.length tps)
          (times_column (schedule_values df) (map weight df))).

Definition calculate_peak_loads (df : DataFrame) : option (Q * Q) :=
  peak_load_real <-
    peak_of df (fun r => inject_Z (Quantity r) * Power r) ;;
  peak_load_apparent <-
    peak_of df (fun r => inject_Z (Quantity r) * ApparentPower r) ;;
  Some (peak_load_real, peak_load_apparent).

End EnergyCalculator.

(** ** load_profile_app.py *)

(** A row of [energy_df] / [average_power_df]: the period columns and the
    ["Appliance"] column added after [apply]. *)
Record PeriodRow : Type := mkPeriodRow {
  cells : Series;
  appliance : string
}.

Definition PeriodFrame : Type := list PeriodRow.

(** [df.apply(f, axis=1)] followed by [out["Appliance"] = df["Appliance"]]. *)
Definition apply_rows (f : Row -> Series) (df : DataFrame) : PeriodFrame :=
  map (fun r => {| cells := f r; appliance := Appliance r |}) df.

Definition _calculate_energy_and_power (df : DataFrame)
  : PeriodFrame * PeriodFrame * PeriodFrame :=
  let energy_df := apply_rows (compute_energy time_periods) df in
  let average_power_df := apply_rows (compute_average_power time_periods) df in
  let instantaneous_power_df :=
    apply_rows (compute_instantaneous_power time_periods) df in
  (energy_df, average_power_df, instantaneous_power_df).

Definition set_total_daily_energy (r : Row) (e : Q) : Row :=
  {| Appliance := Appliance r;
     Quantity := Quantity r;
     Power := Power r;
     DutyCycle := DutyCycle r;
     PowerFactor := PowerFactor r;
     UseTime := UseTime r;
     On := On r;
     Priority := Priority r;
     Room := Room r;
     ApparentPower := ApparentPower r;
     TotalDailyEnergy := e |}.

(** Line 67 of [run]:
    [df["Total Daily Energy (Wh)"] = energy_df[time_periods].sum(axis=1)]. *)
Definition with_total_daily_energy (df : DataFrame) (energy_df : PeriodFrame)
  : DataFrame :=
  zip_with set_total_daily_energy df (map (fun e => Qsum (cells e)) energy_df).

(** [str.lower()], on the ASCII letters. *)
Definition lower_ascii (c : ascii) : ascii :=
  let n := nat_of_ascii c in
  if ((65 <=? n) && (n <=? 90))%nat then ascii_of_nat (n + 32) else c.

Fixpoint lower (s : string) : string :=
  match s with
  | EmptyString => EmptyString
  | String c s' => String (lower_ascii c) (lower s')
  end.

(** [value in values], as [Series.isin] tests it. *)
Definition isin (s : string) (values : list string) : bool :=
  existsb (String.eqb s) values.

(** What one summary block shows: the five metrics, before formatting. *)
Record Summary : Type := mkSummary {
  total_energy_wh : Q;
  peak_real_w : Q;
  peak_apparent_va : Q;
  load_allocation_pct : Q;
  record_count : nat
}.

(** A tier block is either left out of the page or shown. *)
Inductive Display : Type :=
  | NotShown
  | Shown (s : Summary).

(** [df.empty]. *)
Definition empty {A : Type} (df : list A) : bool :=
  match df with
  | [] => true
  | _ :: _ => false
  end.

Definition _display_essential_medium_summary
  (df : DataFrame) (energy_df : PeriodFrame) (peak_load_apparent : Q)
  : option Display :=
  let essential_medium_df :=
    filter (fun r => isin (lower (Priority r)) ["essential"; "medium"]%string)
           df in
  if negb (empty essential_medium_df) then
    let essential_medium_energy_df :=
      filter (fun e => isin (appliance e) (map Appliance essential_medium_df))
             energy_df in
    let essential_medium_total_energy :=
      Qsum (sum_axis0 (List.length time_periods)
              (map cells essential_medium_energy_df)) in
    essential_medium_peak_load_real <-
      peak_of time_periods essential_medium_df
        (fun r => inject_Z (Quantity r) * Power r * UseTime r / 100) ;;
    essential_medium_peak_load_apparent <-
      peak_of time_periods essential_medium_df
        (fun r => inject_Z (Quantity r) * ApparentPower r * UseTime r / 100) ;;
    let essential_medium_load_allocation :=
      if Qlt_le_dec 0 peak_load_apparent
      then essential_medium_peak_load_apparent / peak_load_apparent * 100
      else 0 in
    Some (Shown {| total_energy_wh := essential_medium_total_energy;
                   peak_real_w := essential_medium_peak_load_real;
                   peak_apparent_va := essential_medium_peak_load_apparent;
                   load_allocation_pct := essential_medium_load_allocation;
                   record_count := List.length essential_medium_df |})
  else Some NotShown.

Definition _display_essential_only_summary
  (df : DataFrame) (energy_df : PeriodFrame) (peak_load_apparent : Q)
  : option Display :=
  let essential_df :=
    filter (fun r => String.eqb (lower (Priority r)) "essential") df in
  if negb (empty essential_df) then
    let essential_energy_df :=
      filter (fun e => isin (appliance e) (map Appliance essential_df))
             energy_df in
    let essential_total_energy :=
      Qsum (sum_axis0 (List.length time_periods) (map cells essential_energy_df)) in
    essential_peak_load_real <-
      peak_of time_periods essential_df
        (fun r => inject_Z (Quantity r) * Power r * UseTime r / 100) ;;
    essential_peak_load_apparent <-
      peak_of time_periods essential_df
        (fun r => inject_Z (Quantity r) * ApparentPower r * UseTime r / 100) ;;
    let essential_load_allocation :=
      if Qlt_le_dec 0 peak_load_apparent
      then essential_peak_load_apparent / peak_load_apparent * 100
      else 0 in
    Some (Shown {| total_energy_wh := essential_total_energy;
                   peak_real_w := essential_peak_load_real;
                   peak_apparent_va := essential_peak_load_apparent;
                   load_allocation_pct := essential_load_allocation;
                   record_count := List.length essential_df |})
  else Some NotShown.

(** The body shared by the two tier blocks, over the filtered table
    [tier_df]. *)
Definition tier_total_energy (tier_df : DataFrame) (energy_df : PeriodFrame)
  : Q :=
  Qsum (sum_axis0 (List.length time_periods)
          (map cells
             (filter (fun e => isin (appliance e) (map Appliance tier_df))
                     energy_df))).

Definition tier_display
  (tier_df : DataFrame) (energy_df : PeriodFrame) (peak_load_apparent : Q)
  : option Display :=
  if negb (empty tier_df) then
    peak_real <-
      peak_of time_periods tier_df
        (fun r => inject_Z (Quantity r) * Power r * UseTime r / 100) ;;
    peak_apparent <-
      peak_of time_periods tier_df
        (fun r => inject_Z (Quantity r) * ApparentPower r * UseTime r / 100) ;;
    Some (Shown {| total_energy_wh := tier_total_energy tier_df energy_df;
                   peak_real_w := peak_real;
                   peak_apparent_va := peak_apparent;
                   load_allocation_pct :=
                     if Qlt_le_dec 0 peak_load_apparent
                     then peak_apparent / peak_load_apparent * 100
                     else 0;
                   record_count := List.length tier_df |})
  else Some NotShown.

(** The three blocks of the summaries page. *)
Record Summaries : Type := mkSummaries {
  all_appliances : Summary;
  essential_medium : Display;
  essential_only : Display
}.

Definition _display_summaries
  (df : DataFrame) (energy_df : PeriodFrame) (total_energy : Q)
  : option Summaries :=
  peaks <- calculate_peak_loads time_periods df ;;
  let '(peak_load_real, peak_load_apparent) := peaks in
  let all := {| total_energy_wh := total_energy;
                peak_real_w := peak_load_real;
                peak_apparent_va := peak_load_apparent;
                load_allocation_pct := 100;
                record_count := List.length df |} in
  em <- _display_essential_medium_summary df energy_df peak_load_apparent ;;
  eo <- _display_essential_only_summary df energy_df peak_load_apparent ;;
  Some {| all_appliances := all; essential_medium := em; essential_only := eo |}.

(** The calculation steps of [LoadProfileApp.run] (lines 60-68 and 81), from
    the edited table to the summaries. *)
Definition run (edited_df : DataFrame) : option Summaries :=
  let edited_df := validate_df edited_df in
  let edited_df := map with_apparent_power edited_df in
  let '(energy_df, average_power_df, instantaneous_power_df) :=
    _calculate_energy_and_power edited_df in
  let edited_df := with_total_daily_energy edited_df energy_df in
  let total_energy := Qsum (map TotalDailyEnergy edited_df) in
  _display_summaries edited_df energy_df total_energy.

(** The tables [run] hands to the summaries. *)
Definition energy_table (edited_df : DataFrame) : PeriodFrame :=
  apply_rows (compute_energy time_periods) (validated edited_df).

Definition table (edited_df : DataFrame) : DataFrame :=
  with_total_daily_energy (validated edited_df) (energy_table edited_df).

Definition total_energy (edited_df : DataFrame) : Q :=
  Qsum (map TotalDailyEnergy (table edited_df)).

(** ** The formulas of the specification *)

(** [is_on]: 1 if scheduled, else 0. *)
Definition is_on (b : bool) : Q := if b then 1 else 0.

(** The load of interval [t]: the sum over the records of [df] of
    [weight * is_on(schedule[t])]. *)
Definition interval_load (weight : Row -> Q) (df : DataFrame) (t : Period) : Q :=
  Qsum (map (fun r => weight r * is_on (On r t)) df).

(** [m] is the maximum of [f] over the intervals [tps]. *)
Definition is_max_over (f : Period -> Q) (tps : list Period) (m : Q) : Prop :=
  (exists t, In t tps /\ m == f t) /\ (forall t, In t tps -> f t <= m).

(** The three per-record weights of the peak formulas. *)
Definition nameplate_real (r : Row) : Q := inject_Z (Quantity r) * Power r.
Definition nameplate_apparent (r : Row) : Q :=
  inject_Z (Quantity r) * ApparentPower r.
Definition use_time_real (r : Row) : Q :=
  inject_Z (Quantity r) * Power r * (UseTime r / 100).
Definition use_time_apparent (r : Row) : Q :=
  inject_Z (Quantity r) * ApparentPower r * (UseTime r / 100).

(** The tiers, by priority compared without regard to case. *)
Definition is_essential (r : Row) : bool :=
  String.eqb (lower (Priority r)) "essential".
Definition is_essential_or_medium (r : Row) : bool :=
  isin (lower (Priority r)) ["essential"; "medium"]%string.

(** The two filtered tiers, the rows of each and its block on the page. *)
Inductive Tier : Type :=
  | EssentialMedium
  | EssentialOnly.

Definition in_tier (k : Tier) : Row -> bool :=
  match k with
  | EssentialMedium => is_essential_or_medium
  | EssentialOnly => is_essential
  end.

Definition tier_rows (k : Tier) (df : DataFrame) : DataFrame :=
  filter (in_tier k) df.

Definition block (k : Tier) (S : Summaries) : Display :=
  match k with
  | EssentialMedium => essential_medium S
  | EssentialOnly => essential_only S
  end.

(** The allocation rule for a shown block, against the unfiltered apparent
    peak [pa]. *)
Definition allocation_as_specified (pa : Q) (s : Summary) : Prop :=
  (0 < pa /\
   load_allocation_pct s == peak_apparent_va s / pa * 100 /\
   0 <= load_allocation_pct s <= 100) \/
  (pa == 0 /\ load_allocation_pct s == 0).

(** A block that is shown with every metric zero. *)
Definition zero_summary_shown (d : Display) : Prop :=
  exists s,
    d = Shown s /\
    total_energy_wh s == 0 /\ peak_real_w s == 0 /\ peak_apparent_va s == 0 /\
    load_allocation_pct s == 0 /\ record_count s = 0%nat.

(** The ranges the validator establishes, with the apparent power derived
    from them. *)
Record Valid (r : Row) : Prop := mkValid {
  valid_quantity : (0 <= Quantity r)%Z;
  valid_power : 0 <= Power r;
  valid_duty : 0 <= DutyCycle r <= 100;
  valid_factor : 1 # 100 <= PowerFactor r <= 1;
  valid_use : 0 <= UseTime r <= 100;
  valid_apparent : ApparentPower r == round_ (Power r / PowerFactor r) 1
}.

(** ** Scenarios *)

Definition only_first : list bool :=
  [true; false; false; false; false; false;
   false; false; false; false; false; false].

(** One unit, 100 W, duty 100 %, power factor 1, use time 50 %, on in the
    first interval only, essential. *)
Definition scenario_row : Row :=
  {| Appliance := "Lamp";
     Quantity := 1;
     Power := 100;
     DutyCycle := 100;
     PowerFactor := 1;
     UseTime := 50;
     On := schedule only_first;
     Priority := "essential";
     Room := "Kitchen";
     ApparentPower := 0;
     TotalDailyEnergy := 0 |}.

(** A record of 0.04 W at power factor 1. *)
Definition trickle_row : Row :=
  {| Appliance := "Standby LED";
     Quantity := 1;
     Power := 4 # 100;
     DutyCycle := 100;
     PowerFactor := 1;
     UseTime := 100;
     On := schedule only_first;
     Priority := "essential";
     Room := "Hall";
     ApparentPower := 0;
     TotalDailyEnergy := 0 |}.

(** A non-essential record. *)
Definition geyser_row : Row :=
  {| Appliance := "Geyser";
     Quantity := 1;
     Power := 3000;
     DutyCycle := 30;
     PowerFactor := 1;
     UseTime := 40;
     On := schedule only_first;
     Priority := "non-essential";
     Room := "Bathroom";
     ApparentPower := 0;
     TotalDailyEnergy := 0 |}.

(** Two records under one name: an essential one and a non-essential one. *)
Definition heater_essential : Row :=
  {| Appliance := "Heater";
     Quantity := 1;
     Power := 100;
     DutyCycle := 100;
     PowerFactor := 1;
     UseTime := 50;
     On := schedule only_first;
     Priority := "Essential";
     Room := "Bedroom";
     ApparentPower := 0;
     TotalDailyEnergy := 0 |}.

Definition heater_non_essential : Row :=
  {| Appliance := "Heater";
     Quantity := 1;
     Power := 1500;
     DutyCycle := 100;
     PowerFactor := 1;
     UseTime := 100;
     On := schedule only_first;
     Priority := "non-essential";
     Room := "Lounge";
     ApparentPower := 0;
     TotalDailyEnergy := 0 |}.

(** A record with no unit. *)
Definition idle_row : Row :=
  {| Appliance := "Spare";
     Quantity := 0;
     Power := 100;
     DutyCycle := 100;
     PowerFactor := 1;
     UseTime := 50;
     On := schedule only_first;
     Priority := "essential";
     Room := "Store";
     ApparentPower := 0;
     TotalDailyEnergy := 0 |}.

(** The record [r] with another duty cycle and use time. *)
Definition with_derating (r : Row) (duty use_time : Q) : Row :=
  {| Appliance := Appliance r;
     Quantity := Quantity r;
     Power := Power r;
     DutyCycle := duty;
     PowerFactor := PowerFactor r;
     UseTime := use_time;
     On := On r;
     Priority := Priority r;
     Room := Room r;
     ApparentPower := ApparentPower r;
     TotalDailyEnergy := TotalDailyEnergy r |}.

(** ** Further parts of load_profile_app.py *)

(** [_display_charts], line 160: the appliances named in the zero-energy
    warning,
    [df.loc[df["Total Daily Energy (Wh)"] == 0, "Appliance"].tolist()]. *)
Definition zero_energy_appliances (df : DataFrame) : list string :=
  map Appliance (filter (fun r => Qeq_bool (TotalDailyEnergy r) 0) df).

(** The values the validator leaves alone. *)
Record InRange (r : Row) : Prop := mkInRange {
  range_quantity : (0 <= Quantity r)%Z;
  range_power : 0 <= Power r;
  range_duty : 0 <= DutyCycle r <= 100;
  range_factor : 1 # 100 <= PowerFactor r <= 1;
  range_use : 0 <= UseTime r <= 100
}.

(** A record that cannot draw energy: no unit, no power, no duty, no use
    time, or no scheduled period. *)
Definition idle (r : Row) : bool :=
  (Quantity r =? 0)%Z
  || Qeq_bool (Power r) 0
  || Qeq_bool (DutyCycle r) 0
  || Qeq_bool (UseTime r) 0
  || forallb (fun t => negb (On r t)) time_periods.

(** The peaks of one block lie within those of another. *)
Definition peaks_within (inner outer : Summary) : Prop :=
  peak_real_w inner <= peak_real_w outer /\
  peak_apparent_va inner <= peak_apparent_va outer.

(** ** Further parts of database_manager.py *)

(** [range(start, stop, step)] for a positive step. *)
Definition range (start stop step : nat) : list nat :=
  map (fun k => (start + k * step)%nat)
      (seq 0 ((stop - start + step - 1) / step)).

(** [f"{n:02d}"]: decimal, padded with a zero to two digits. *)
Definition fmt_02d (n : nat) : string :=
  let digits := NilZero.string_of_uint (Nat.to_uint n) in
  if (String.length digits <? 2)%nat then String "0" digits else digits.

(** The en dash between start and end, as its three UTF-8 bytes. *)
Definition en_dash : string :=
  String "226" (String "128" (String "147" EmptyString)).

(** The body of the loop of [_make_time_periods], on the label itself:
    [start = f"{i:02d}:00"], [end = f"{(i + 2) % 24:02d}:00"] and the
    label is [start], an en dash, [end]. *)
Definition period_text (i : nat) : string :=
  let start := (fmt_02d i ++ ":00")%string in
  let end_ := (fmt_02d ((i + 2) mod 24) ++ ":00")%string in
  (start ++ en_dash ++ end_)%string.

(** [_make_time_periods]: [for i in range(0, 24, 2)]. *)
Definition time_period_labels : list string :=
  map period_text (range 0 24 2).

(** The label of a period column. *)
Definition period_label (p : Period) : string := period_text (start_hour p).

(** [init_db]: the columns of the [appliances] table, in the order of the
    [CREATE TABLE] statement. *)
Definition appliances_columns : list string :=
  ["id"; "Appliance"; "Quantity"; "Power (W)"; "Duty Cycle (%)";
   "Power Factor"; "Use Time (%)";
   "00:00–02:00"; "02:00–04:00"; "04:00–06:00"; "06:00–08:00";
   "08:00–10:00"; "10:00–12:00"; "12:00–14:00"; "14:00–16:00";
   "16:00–18:00"; "18:00–20:00"; "20:00–22:00"; "22:00–00:00";
   "Priority"; "Room"; "Apparent Power (VA)";
   "Total Daily Energy (Wh)"]%string.

(** ** Further parts of load_profile_app.py: the editor's column order *)

(** [_create_data_editor], lines 100-106:
    [ordered = [c for c in desired_order if c in df.columns]
               + [c for c in df.columns if c not in desired_order]]. *)
Definition desired_order : list string :=
  (["Appliance"; "Quantity"; "Power (W)"; "Duty Cycle (%)"; "Power Factor";
    "Use Time (%)"]%string
   ++ time_period_labels
   ++ ["Priority"; "Room"; "Apparent Power (VA)";
       "Total Daily Energy (Wh)"]%string)%list.

Definition ordered (columns : list string) : list string :=
  (filter (fun c => isin c columns) desired_order
   ++ filter (fun c => negb (isin c desired_order)) columns)%list.

(** ** Further parts of load_profile_app.py: load curves *)

(** [(ints * weights.reshape(-1, 1)).sum(axis=0)]: the load curve over the
    periods. *)
Definition profile_of (tps : list Period) (df : DataFrame) (weight : Row -> Q)
  : list Q :=
  sum_axis0 (List.length tps)
    (times_column (schedule_values tps df) (map weight df)).

(** [_display_charts], lines 145-146: the ["Total Load (W)"] column of the
    transposed average-power table, [plot_df.sum(axis=1)]. *)
Definition total_load (average_power_df : PeriodFrame) : list Q :=
  sum_axis0 (List.length time_periods) (map cells average_power_df).

(** [pat in s]: [pat] occurs somewhere in [s]. *)
Fixpoint contains (pat s : string) : bool :=
  String.prefix pat s
  || match s with
     | EmptyString => false
     | String _ s' => contains pat s'
     end.

(** [str.contains("Geyser|Stove", case=False)], on ASCII names. *)
Definition contains_geyser_or_stove (name : string) : bool :=
  contains "geyser" (lower name) || contains "stove" (lower name).

(** The three curves of the comparison chart. *)
Record Comparison : Type := mkComparison {
  all_profile : list Q;
  ess_med_profile : list Q;
  ess_profile : list Q
}.

Definition _display_comparison_charts (df : DataFrame) : Comparison :=
  let average_power_df :=
    apply_rows (compute_average_power time_periods) df in
  let all_profile :=
    sum_axis0 (List.length time_periods) (map cells average_power_df) in
  let ess_med_df :=
    filter (fun r => isin (lower (Priority r)) ["essential"; "medium"]%string)
           df in
  let ess_med_df :=
    filter (fun r => negb (contains_geyser_or_stove (Appliance r)))
           ess_med_df in
  let ess_med_profile :=
    profile_of time_periods ess_med_df
      (fun r => inject_Z (Quantity r) * Power r) in
  let ess_df :=
    filter (fun r => String.eqb (lower (Priority r)) "essential") df in
  let ess_profile :=
    profile_of time_periods ess_df
      (fun r => inject_Z (Quantity r) * Power r) in
  {| all_profile := all_profile;
     ess_med_profile := ess_med_profile;
     ess_profile := ess_profile |}.

(** An essential record whose name holds "stove". *)
Definition camping_stove : Row :=
  {| Appliance := "Camping Stove";
     Quantity := 1;
     Power := 700;
     DutyCycle := 100;
     PowerFactor := 1;
     UseTime := 50;
     On := schedule only_first;
     Priority := "essential";
     Room := "Kitchen";
     ApparentPower := 0;
     TotalDailyEnergy := 0 |}.

(** ** chart_generator.py *)

(** [df.loc[df["Appliance"] == appliance, column].values[0]]: the first record
    under the name; [IndexError] when there is none. *)
Definition first_named (df : DataFrame) (appliance : string) : option Row :=
  find (fun r => String.eqb (Appliance r) appliance) df.

(** [frame[frame["Appliance"] == appliance][time_periods].values[0]] on a
    derived table. *)
Definition first_cells (frame : PeriodFrame) (name : string)
  : option Series :=
  match find (fun e => String.eqb (appliance e) name) frame with
  | Some e => Some (cells e)
  | None => None
  end.

(** The loop of [create_daily_energy_bar_chart]: name, daily energy and
    lower-cased priority of every appliance with a positive daily energy. *)
Fixpoint daily_energy_bars (df : DataFrame) (appliances : list string)
  : option (list (string * Q * string)) :=
  match appliances with
  | [] => Some []
  | appliance :: rest =>
      r <- first_named df appliance ;;
      let daily_energy := TotalDailyEnergy r in
      if Qlt_le_dec 0 daily_energy then
        r' <- first_named df appliance ;;
        let priority := Priority r' in
        bars <- daily_energy_bars df rest ;;
        Some ((appliance, daily_energy, lower priority) :: bars)
      else daily_energy_bars df rest
  end.

(** The data of the stacked bar figure: the categories and the heights of the
    three series (the bar texts and hover data repeat the heights). *)
Record BarChart : Type := mkBarChart {
  bar_x : list string;
  y_essential : list Q;
  y_medium : list Q;
  y_non_ess : list Q
}.

Definition create_daily_energy_bar_chart (df : DataFrame)
  : option (option BarChart) :=
  bars <- daily_energy_bars df (map Appliance df) ;;
  let appliance_names := map (fun b => fst (fst b)) bars in
  let appliance_daily_energy := map (fun b => snd (fst b)) bars in
  let appliance_priorities := map (fun b => snd b) bars in
  if empty appliance_daily_energy then Some None
  else
    let y_essential :=
      zip_with (fun e p => if String.eqb p "essential" then e else 0)
               appliance_daily_energy appliance_priorities in
    let y_medium :=
      zip_with (fun e p => if String.eqb p "medium" then e else 0)
               appliance_daily_energy appliance_priorities in
    let y_non_ess :=
      zip_with (fun e p =>
                  if negb (isin p ["essential"; "medium"]%string) then e else 0)
               appliance_daily_energy appliance_priorities in
    Some (Some {| bar_x := appliance_names;
                  y_essential := y_essential;
                  y_medium := y_medium;
                  y_non_ess := y_non_ess |}).

(** A line of the time-series figure. *)
Record Trace : Type := mkTrace {
  trace_name : string;
  trace_y : list Q;
  trace_color : nat       (* position in the colour list *)
}.

Section ChartGenerator.

(** [len(colors)], the length of the plotly colour list
    [Set3 + Pastel + Set1]. *)
Variable palette : nat.

(** The loop of [create_time_series_chart], [i] counting the appliances. *)
Fixpoint time_series_traces
  (power_df : PeriodFrame) (i : nat) (appliances : list string)
  : option (list Trace) :=
  match appliances with
  | [] => Some []
  | appliance :: rest =>
      appliance_data <- first_cells power_df appliance ;;
      m <- amax appliance_data ;;
      if Qlt_le_dec 0 m then
        traces <- time_series_traces power_df (S i) rest ;;
        Some ({| trace_name := appliance;
                 trace_y := appliance_data;
                 trace_color := (i mod palette)%nat |} :: traces)
      else time_series_traces power_df (S i) rest
  end.

Definition create_time_series_chart (power_df : PeriodFrame)
  : option (list Trace) :=
  time_series_traces power_df 0 (map appliance power_df).

End ChartGenerator.

(** [create_stacked_energy_chart]: one bar series per row, named after the
    appliance and carrying the cells of the first row under that name. *)
Fixpoint stacked_traces (energy_df : PeriodFrame) (appliances : list string)
  : option (list (string * list Q)) :=
  match appliances with
  | [] => Some []
  | appliance :: rest =>
      y <- first_cells energy_df appliance ;;
      traces <- stacked_traces energy_df rest ;;
      Some ((appliance, y) :: traces)
  end.

Definition create_stacked_energy_chart (energy_df : PeriodFrame)
  : option (list (string * list Q)) :=
  stacked_traces energy_df (map appliance energy_df).

(** The rows of a table with their positions, [enumerate]. *)
Definition enumerate {A : Type} (l : list A) : list (nat * A) :=
  combine (seq 0 (List.length l)) l.

(** A record that draws power in some period. *)
Definition draws_power (r : Row) : bool :=
  (0 <? Quantity r)%Z
  && negb (Qle_bool (Power r) 0)
  && existsb (On r) time_periods.

(** A strictly positive number. *)
Definition positive (x : Q) : bool := negb (Qle_bool x 0).

(** ** load_profile_app.py: the filtered time-series chart *)

(** A line of the filtered figure: its legend name
    [f'{appliance} ({priority})'], its data, its colour, and the appliance and
    priority shown on hover. *)
Record FilteredTrace : Type := mkFilteredTrace {
  ft_name : string;
  ft_y : list Q;
  ft_color : string;
  ft_appliance : string;
  ft_priority : string
}.

(** The loop of [_create_filtered_time_series_chart]. *)
Fixpoint filtered_traces
  (filtered_df : DataFrame) (filtered_power_df : PeriodFrame)
  (appliances : list string) : option (list FilteredTrace) :=
  match appliances with
  | [] => Some []
  | appliance :: rest =>
      appliance_data <- first_cells filtered_power_df appliance ;;
      r <- first_named filtered_df appliance ;;
      let priority := Priority r in
      m <- amax appliance_data ;;
      if Qlt_le_dec 0 m then
        let color :=
          if String.eqb priority "essential" then "#FF6B6B"%string
          else if String.eqb priority "medium" then "#FFD93D"%string
               else "#45B7D1"%string in
        traces <- filtered_traces filtered_df filtered_power_df rest ;;
        Some ({| ft_name := (appliance ++ " (" ++ priority ++ ")")%string;
                 ft_y := appliance_data;
                 ft_color := color;
                 ft_appliance := appliance;
                 ft_priority := priority |} :: traces)
      else filtered_traces filtered_df filtered_power_df rest
  end.

Definition _create_filtered_time_series_chart
  (filtered_df : DataFrame) (filtered_power_df : PeriodFrame)
  : option (list FilteredTrace) :=
  filtered_traces filtered_df filtered_power_df
    (map appliance filtered_power_df).

(** [priorities_to_show], from the three check-boxes. *)
Definition priorities_to_show
  (show_essential show_medium show_non_essential : bool) : list string :=
  ((if show_essential then ["essential"%string] else [])
   ++ (if show_medium then ["medium"%string] else [])
   ++ (if show_non_essential then ["non-essential"%string] else []))%list.

(** [_display_time_series_charts]: the chart of all appliances and, when a
    box is ticked, the filtered chart. *)
Definition _display_time_series_charts
  (palette : nat) (df : DataFrame) (average_power_df : PeriodFrame)
  (show_essential show_medium show_non_essential : bool)
  : option (list Trace * option (list FilteredTrace)) :=
  timeseries_chart <- create_time_series_chart palette average_power_df ;;
  if show_essential || show_medium || show_non_essential then
    let filtered_df :=
      filter (fun r =>
                isin (Priority r)
                  (priorities_to_show show_essential show_medium
                     show_non_essential))
             df in
    let filtered_power_df :=
      apply_rows (compute_average_power time_periods) filtered_df in
    fig_filtered <-
      _create_filtered_time_series_chart filtered_df filtered_power_df ;;
    Some (timeseries_chart, Some fig_filtered)
  else Some (timeseries_chart, None).

(** The number of units in a table, summed over its records. *)
Definition units (df : DataFrame) : Q :=
  Qsum (map (fun r => inject_Z (Quantity r)) df).

(** The names on the bars of a bar chart, none when there is no chart. *)
Definition bar_names (res : option BarChart) : list string :=
  match res with
  | Some fig => bar_x fig
  | None => []
  end.

(** * Properties *)

(** ** Validator *)

Lemma clip_idem (x lower : Q) (upper : option Q) :
  match upper with Some u => lower <= u | None => True end ->
  clip (clip x lower upper) lower upper = clip x lower upper.
Proof.
  unfold clip; destruct upper as [u|]; intros H;
    repeat (destruct Qlt_le_dec; try reflexivity); exfalso; lra.
Qed.

Lemma clip_range (x lower : Q) (upper : option Q) :
  match upper with Some u => lower <= u | None => True end ->
  lower <= clip x lower upper /\
  match upper with Some u => clip x lower upper <= u | None => True end.
Proof.
  unfold clip; destruct upper as [u|]; intros H;
    repeat destruct Qlt_le_dec; split; trivial; lra.
Qed.

Lemma clipZ_idem (x lower : Z) : clipZ (clipZ x lower) lower = clipZ x lower.
Proof.
  unfold clipZ; destruct (x <? lower)%Z eqn:E; [|now rewrite E].
  now rewrite Z.ltb_irrefl.
Qed.

Lemma clipZ_range (x lower : Z) : (lower <= clipZ x lower)%Z.
Proof. unfold clipZ; destruct (Z.ltb_spec x lower); lia. Qed.

Lemma validate_row_idem (r : Row) :
  validate_row (validate_row r) = validate_row r.
Proof.
  unfold validate_row; cbn [Appliance Quantity Power DutyCycle PowerFactor
    UseTime On Priority Room ApparentPower TotalDailyEnergy].
  rewrite clipZ_idem, !clip_idem; (reflexivity || (cbn; lra) || exact I).
Qed.

Lemma validate_row_ranges (r : Row) :
  0 <= UseTime (validate_row r) <= 100 /\
  0 <= DutyCycle (validate_row r) <= 100 /\
  0 <= Power (validate_row r) /\
  (0 <= Quantity (validate_row r))%Z /\
  1 # 100 <= PowerFactor (validate_row r) <= 1.
Proof.
  cbn.
  pose proof (clip_range (UseTime r) 0 (Some 100)) as U.
  pose proof (clip_range (DutyCycle r) 0 (Some 100)) as D.
  pose proof (clip_range (Power r) 0 None) as P.
  pose proof (clip_range (PowerFactor r) (1 # 100) (Some 1)) as F.
  pose proof (clipZ_range (Quantity r) 0) as N.
  cbn in U, D, P, F.
  repeat split; try tauto; try (apply U; lra); try (apply D; lra);
    try (apply F; lra).
Qed.

(** C9. The validator is idempotent on every table; it puts the use time and
    the duty cycle in [0, 100], the power and the quantity in [0, +inf) and the
    power factor in [0.01, 1], and leaves every other column as it was. *)
Theorem validate_df_idempotent :
  (forall x : DataFrame, validate_df (validate_df x) = validate_df x) /\
  (forall r : Row,
      0 <= UseTime (validate_row r) <= 100 /\
      0 <= DutyCycle (validate_row r) <= 100 /\
      0 <= Power (validate_row r) /\
      (0 <= Quantity (validate_row r))%Z /\
      1 # 100 <= PowerFactor (validate_row r) <= 1 /\
      Appliance (validate_row r) = Appliance r /\
      On (validate_row r) = On r /\
      Priority (validate_row r) = Priority r /\
      Room (validate_row r) = Room r /\
      ApparentPower (validate_row r) = ApparentPower r /\
      TotalDailyEnergy (validate_row r) = TotalDailyEnergy r).
Proof.
  split.
  - intros x; unfold validate_df; rewrite map_map.
    apply map_ext; intros r; apply validate_row_idem.
  - intros r; pose proof (validate_row_ranges r) as H.
    repeat split; try reflexivity; tauto.
Qed.

(** ** Per-interval energy and average power *)

Lemma inject_int (b : bool) : inject_Z (int b) == is_on b.
Proof. destruct b; reflexivity. Qed.

Lemma energy_cell (q : Z) (p d u : Q) (b : bool) :
  inject_Z (2 * q) * p * (d / 100) * (u / 100) * inject_Z (int b) ==
  if b then 2 * inject_Z q * p * (d / 100) * (u / 100) else 0.
Proof.
  rewrite inject_Z_mult; change (inject_Z 2) with 2.
  destruct b; cbn [int]; [change (inject_Z 1) with 1 | change (inject_Z 0) with 0];
    ring.
Qed.

Lemma power_cell (q : Z) (p : Q) (b : bool) :
  inject_Z q * p * inject_Z (int b) == if b then inject_Z q * p else 0.
Proof.
  destruct b; cbn [int]; [change (inject_Z 1) with 1 | change (inject_Z 0) with 0];
    ring.
Qed.

(** C1. For every record (validated or not) and each of the twelve intervals,
    the energy computed for the interval is
    [2 * quantity * power * (duty/100) * (use_time/100)] when the record is
    scheduled there and 0 when it is not; for the scenario record the energy
    table reads 100 Wh in the first interval and 0 in the others. *)
Theorem compute_energy_per_interval :
  (forall (r : Row) (t : Period),
      exists e,
        at_period (compute_energy time_periods r) t = Some e /\
        e == if On r t
             then 2 * inject_Z (Quantity r) * Power r
                  * (DutyCycle r / 100) * (UseTime r / 100)
             else 0) /\
  Forall2 (Forall2 Qeq)
    (map cells (energy_table [scenario_row]))
    [[100; 0; 0; 0; 0; 0; 0; 0; 0; 0; 0; 0]].
Proof.
  split.
  - intros r t; destruct t; cbn; (eexists; split; [reflexivity|]);
      apply energy_cell.
  - vm_compute; repeat constructor; discriminate.
Qed.

(** C2. For every record and each interval, the average power computed for
    the interval is [quantity * power] when the record is scheduled there and
    0 when it is not: changing the duty cycle and the use time of a
    record leaves its average-power row as it was.  For the scenario record (use time 50 %)
    the first interval reads 100 W. *)
Theorem compute_average_power_per_interval :
  (forall (r : Row) (t : Period),
      exists p,
        at_period (compute_average_power time_periods r) t = Some p /\
        p == if On r t then inject_Z (Quantity r) * Power r else 0) /\
  (forall (r : Row) (duty use_time : Q),
      compute_average_power time_periods (with_derating r duty use_time) =
      compute_average_power time_periods r) /\
  Forall2 (Forall2 Qeq)
    (map (compute_average_power time_periods) (validated [scenario_row]))
    [[100; 0; 0; 0; 0; 0; 0; 0; 0; 0; 0; 0]].
Proof.
  split; [|split].
  - intros r t; destruct t; cbn; (eexists; split; [reflexivity|]);
      apply power_cell.
  - reflexivity.
  - vm_compute; repeat constructor; discriminate.
Qed.

(** ** Rounding and the apparent power *)

Lemma rint_near (x : Q) :
  x - (1 # 2) <= inject_Z (rint x) <= x + (1 # 2).
Proof.
  unfold rint.
  pose proof (Qfloor_le x) as Hlo.
  pose proof (Qlt_floor x) as Hhi.
  rewrite inject_Z_plus in Hhi; change (inject_Z 1) with 1 in Hhi.
  destruct (Qcompare_spec (x - inject_Z (Qfloor x)) (1 # 2)) as [E|E|E].
  - destruct (Z.even (Qfloor x));
      [|rewrite inject_Z_plus; change (inject_Z 1) with 1]; lra.
  - lra.
  - rewrite inject_Z_plus; change (inject_Z 1) with 1; lra.
Qed.

Lemma rint_nonneg (x : Q) : 0 <= x -> (0 <= rint x)%Z.
Proof.
  intros Hx; unfold rint.
  assert (0 <= Qfloor x)%Z as Hf.
  { change 0%Z with (Qfloor 0); now apply Qfloor_resp_le. }
  destruct (Qcompare _ _); [destruct (Z.even _)| |]; lia.
Qed.

Lemma round_1_near (x : Q) :
  x - (1 # 20) <= round_ x 1 <= x + (1 # 20).
Proof.
  unfold round_; change (inject_Z (Z.pow_pos 10 1)) with 10.
  pose proof (rint_near (x * 10)) as H.
  set (k := inject_Z (rint (x * 10))) in *.
  assert (k / 10 == k * (1 # 10)) as -> by (field; discriminate).
  lra.
Qed.

Lemma round_1_nonneg (x : Q) : 0 <= x -> 0 <= round_ x 1.
Proof.
  intros Hx; unfold round_; change (inject_Z (Z.pow_pos 10 1)) with 10.
  assert (0 <= rint (x * 10))%Z as H by (apply rint_nonneg; lra).
  apply Qle_shift_div_l; [reflexivity|].
  rewrite Qmult_0_l; change 0 with (inject_Z 0); now rewrite <- Zle_Qle.
Qed.

Lemma ratio_ge (p f : Q) : 0 <= p -> 1 # 100 <= f <= 1 -> p <= p / f.
Proof.
  intros Hp [Hlo Hhi].
  apply Qle_shift_div_l; [lra|].
  rewrite <- (Qmult_1_r p) at 2.
  apply Qmult_le_compat_nonneg; split; lra.
Qed.

(** C6 (as the program has it). For every record after validation and
    derivation of the apparent power: the quotient [power / power_factor] is
    at least the power, the apparent power is that quotient rounded to one
    decimal, and so the apparent power is at least the power less 0.05. *)
Theorem apparent_power_near_real (r0 : Row) :
  let r := with_apparent_power (validate_row r0) in
  Power r <= Power r / PowerFactor r /\
  ApparentPower r = round_ (Power r / PowerFactor r) 1 /\
  Power r - (1 # 20) <= ApparentPower r.
Proof.
  pose proof (validate_row_ranges r0) as H.
  cbn zeta; cbn [with_apparent_power Power PowerFactor ApparentPower].
  assert (Power (validate_row r0) <=
          Power (validate_row r0) / PowerFactor (validate_row r0)) as Hq
      by (apply ratio_ge; tauto).
  split; [exact Hq|split; [reflexivity|]].
  pose proof (round_1_near
                (Power (validate_row r0) / PowerFactor (validate_row r0))).
  lra.
Qed.

(** C6 fails as stated: a record of 0.04 W at power factor 1 is unchanged by
    the validator, its apparent power rounds to 0.0 VA, below its power. *)
Lemma apparent_power_below_real :
  let r := with_apparent_power (validate_row trickle_row) in
  In r (validated [trickle_row]) /\
  Power r == 4 # 100 /\ PowerFactor r == 1 /\ ApparentPower r == 0 /\
  ~ Power r <= ApparentPower r.
Proof.
  cbn zeta; split; [left; reflexivity|].
  vm_compute; repeat split; intros H; now apply H.
Qed.

(** ** Sums, column sums and maxima *)

Lemma Qsum_nonneg (l : list Q) : Forall (fun x => 0 <= x) l -> 0 <= Qsum l.
Proof.
  unfold Qsum; induction 1 as [|x l Hx _ IH]; cbn [fold_right];
    [apply Qle_refl|lra].
Qed.

Lemma Qsum_le (l l' : list Q) : Forall2 Qle l l' -> Qsum l <= Qsum l'.
Proof.
  unfold Qsum; induction 1 as [|x y l l' Hxy _ IH]; cbn [fold_right];
    [apply Qle_refl|lra].
Qed.

Lemma Qsum_eq (l l' : list Q) : Forall2 Qeq l l' -> Qsum l == Qsum l'.
Proof.
  unfold Qsum; induction 1 as [|x y l l' Hxy _ IH]; cbn [fold_right];
    [reflexivity|].
  now rewrite Hxy, IH.
Qed.

Lemma Forall2_map_Qeq {A : Type} (f g : A -> Q) (ts : list A) :
  (forall t, f t == g t) -> Forall2 Qeq (map f ts) (map g ts).
Proof. intros H; induction ts; cbn; constructor; auto. Qed.

Lemma zip_plus_maps {A : Type} (f g : A -> Q) (ts : list A) :
  forall l l' : list Q,
    Forall2 Qeq l (map f ts) -> Forall2 Qeq l' (map g ts) ->
    Forall2 Qeq (zip_with Qplus l l') (map (fun t => f t + g t) ts).
Proof.
  induction ts as [|t ts IH]; cbn; intros l l' H H'; inversion H; subst;
    inversion H'; subst; cbn; constructor.
  - now apply Qplus_comp.
  - now apply IH.
Qed.

Lemma repeat_zero_map {A : Type} (ts : list A) :
  repeat 0 (List.length ts) = map (fun _ => 0) ts.
Proof. induction ts; cbn; congruence. Qed.

(** The column sums of the scaled schedule matrix are the interval loads. *)
Lemma sum_axis0_interval_load (tps : list Period) (w : Row -> Q) (df : DataFrame) :
  Forall2 Qeq
    (sum_axis0 (List.length tps)
       (times_column (schedule_values tps df) (map w df)))
    (map (interval_load w df) tps).
Proof.
  induction df as [|r df IH].
  - cbn; rewrite repeat_zero_map; now apply Forall2_map_Qeq.
  - cbn [schedule_values map times_column zip_with sum_axis0].
    apply (zip_plus_maps (fun t => w r * is_on (On r t)) (interval_load w df)).
    + rewrite map_map; apply Forall2_map_Qeq; intros t.
      rewrite inject_int; ring.
    + exact IH.
Qed.

Lemma Qmax_either (x y : Q) : Qmax x y = x \/ Qmax x y = y.
Proof.
  unfold Qmax, GenericMinMax.gmax; destruct (Qcompare x y); auto.
Qed.

Lemma fold_max_spec (xs : list Q) :
  forall x,
    In (fold_left Qmax xs x) (x :: xs) /\
    Forall (fun y => y <= fold_left Qmax xs x) (x :: xs).
Proof.
  induction xs as [|a xs IH]; intros x; cbn [fold_left].
  - split; [now left|constructor; [apply Qle_refl|constructor]].
  - destruct (IH (Qmax x a)) as [Hin Hall]; split.
    + destruct Hin as [E|Hin]; [|right; now right].
      rewrite <- E; destruct (Qmax_either x a) as [->| ->];
        [now left|right; now left].
    + inversion Hall as [|? ? Hm Hxs]; subst.
      constructor; [|constructor; [|exact Hxs]].
      * eapply Qle_trans; [apply Q.le_max_l|exact Hm].
      * eapply Qle_trans; [apply Q.le_max_r|exact Hm].
Qed.

Lemma amax_spec (v : list Q) (m : Q) :
  amax v = Some m -> In m v /\ Forall (fun y => y <= m) v.
Proof.
  destruct v as [|x xs]; [discriminate|]; cbn; intros [= <-].
  apply fold_max_spec.
Qed.

Lemma Forall2_In_l {A B : Type} (R : A -> B -> Prop) (l : list A) (l' : list B) :
  Forall2 R l l' -> forall a, In a l -> exists b, In b l' /\ R a b.
Proof.
  induction 1 as [|x y l l' Hxy _ IH]; intros a [].
  - subst; exists y; split; [now left|assumption].
  - destruct (IH a) as [b [Hb Hab]]; [assumption|].
    exists b; split; [now right|assumption].
Qed.

Lemma Forall2_In_r {A B : Type} (R : A -> B -> Prop) (l : list A) (l' : list B) :
  Forall2 R l l' -> forall b, In b l' -> exists a, In a l /\ R a b.
Proof.
  induction 1 as [|x y l l' Hxy _ IH]; intros b [].
  - subst; exists x; split; [now left|assumption].
  - destruct (IH b) as [a [Ha Hab]]; [assumption|].
    exists a; split; [now right|assumption].
Qed.

Lemma interval_load_ext (w w' : Row -> Q) (df : DataFrame) (t : Period) :
  (forall r, w r == w' r) -> interval_load w df t == interval_load w' df t.
Proof.
  intros H; unfold interval_load; apply Qsum_eq.
  apply Forall2_map_Qeq; intros r; now rewrite H.
Qed.

(** Every peak expression over the twelve periods returns the maximum of the
    interval loads. *)
Lemma peak_of_spec (df : DataFrame) (w w' : Row -> Q) :
  (forall r, w r == w' r) ->
  exists m,
    peak_of time_periods df w = Some m /\
    is_max_over (interval_load w' df) time_periods m.
Proof.
  intros Hw; unfold peak_of.
  pose proof (sum_axis0_interval_load time_periods w df) as HF.
  destruct (amax _) as [m|] eqn:E.
  - exists m; split; [reflexivity|].
    apply amax_spec in E; destruct E as [Hin Hall]; split.
    + destruct (Forall2_In_l _ _ _ HF m Hin) as [x [Hx Hmx]].
      apply in_map_iff in Hx; destruct Hx as [t [<- Ht]].
      exists t; split; [exact Ht|].
      now rewrite Hmx; apply interval_load_ext.
    + intros t Ht.
      destruct (Forall2_In_r _ _ _ HF (interval_load w df t)) as [y [Hy Hyt]];
        [now apply in_map|].
      rewrite Forall_forall in Hall.
      rewrite <- (interval_load_ext w w' df t Hw), <- Hyt; now apply Hall.
  - exfalso; destruct (sum_axis0 _ _) as [|x xs]; [|discriminate E].
    unfold time_periods, _make_time_periods in HF; cbn [map] in HF.
    inversion HF.
Qed.

Lemma peak_loads_are_maxima (df : DataFrame) :
  exists peak_load_real peak_load_apparent,
    calculate_peak_loads time_periods df =
      Some (peak_load_real, peak_load_apparent) /\
    is_max_over (interval_load nameplate_real df) time_periods peak_load_real /\
    is_max_over (interval_load nameplate_apparent df) time_periods
      peak_load_apparent.
Proof.
  unfold calculate_peak_loads.
  destruct (peak_of_spec df (fun r => inject_Z (Quantity r) * Power r)
              nameplate_real) as [pr [Er Hr]]; [reflexivity|].
  destruct (peak_of_spec df (fun r => inject_Z (Quantity r) * ApparentPower r)
              nameplate_apparent) as [pa [Ea Ha]]; [reflexivity|].
  exists pr, pa; rewrite Er, Ea; cbn; auto.
Qed.

(** C3. For every table, [calculate_peak_loads] returns the maximum over the
    twelve intervals of the sum over all its records of
    [quantity * power * is_on], and the same with the apparent power in place
    of the power; neither use time nor duty cycle enters. *)
Theorem calculate_peak_loads_spec (df : DataFrame) :
  exists peak_load_real peak_load_apparent,
    calculate_peak_loads time_periods df =
      Some (peak_load_real, peak_load_apparent) /\
    is_max_over (interval_load nameplate_real df) time_periods peak_load_real /\
    is_max_over (interval_load nameplate_apparent df) time_periods
      peak_load_apparent.
Proof. exact (peak_loads_are_maxima df). Qed.

(** ** The tables handed to the summaries *)

Lemma with_total_daily_energy_map (df : DataFrame) (f : Row -> Series) :
  with_total_daily_energy df (apply_rows f df) =
  map (fun r => set_total_daily_energy r (Qsum (f r))) df.
Proof.
  unfold with_total_daily_energy, apply_rows; rewrite map_map; cbn [cells].
  induction df as [|r df IH]; cbn; congruence.
Qed.

Lemma table_rows (raw : DataFrame) :
  table raw =
  map (fun r0 =>
         let r := with_apparent_power (validate_row r0) in
         set_total_daily_energy r (Qsum (compute_energy time_periods r)))
      raw.
Proof.
  unfold table, energy_table; rewrite with_total_daily_energy_map.
  unfold validated, validate_df; now rewrite !map_map.
Qed.

Lemma table_valid (raw : DataFrame) : Forall Valid (table raw).
Proof.
  rewrite table_rows, Forall_map, Forall_forall; intros r0 _.
  pose proof (validate_row_ranges r0) as H.
  constructor; cbn; try tauto; reflexivity.
Qed.

Lemma valid_apparent_nonneg (r : Row) : Valid r -> 0 <= ApparentPower r.
Proof.
  intros [Hq Hp Hd Hf Hu Ha]; rewrite Ha; apply round_1_nonneg.
  eapply Qle_trans; [exact Hp|now apply ratio_ge].
Qed.

Lemma energy_table_cells (raw : DataFrame) :
  map cells (energy_table raw) =
  map (compute_energy time_periods) (validated raw).
Proof. unfold energy_table, apply_rows; now rewrite map_map. Qed.

(** ** The two tier blocks *)

Lemma essential_medium_as_tier (df : DataFrame) (e : PeriodFrame) (pa : Q) :
  _display_essential_medium_summary df e pa =
  tier_display (tier_rows EssentialMedium df) e pa.
Proof. reflexivity. Qed.

Lemma essential_only_as_tier (df : DataFrame) (e : PeriodFrame) (pa : Q) :
  _display_essential_only_summary df e pa =
  tier_display (tier_rows EssentialOnly df) e pa.
Proof. reflexivity. Qed.

Lemma use_time_real_eq (r : Row) :
  inject_Z (Quantity r) * Power r * UseTime r / 100 == use_time_real r.
Proof. unfold use_time_real; field. Qed.

Lemma use_time_apparent_eq (r : Row) :
  inject_Z (Quantity r) * ApparentPower r * UseTime r / 100 ==
  use_time_apparent r.
Proof. unfold use_time_apparent; field. Qed.

(** A tier block is left out exactly when the tier has no row; otherwise it
    shows the tier energy, the two use-time-weighted peaks, the guarded
    allocation and the number of rows. *)
Lemma tier_display_cases (tier_df : DataFrame) (e : PeriodFrame) (pa : Q) :
  (tier_df = [] /\ tier_display tier_df e pa = Some NotShown) \/
  (tier_df <> [] /\
   exists pr pq,
     is_max_over (interval_load use_time_real tier_df) time_periods pr /\
     is_max_over (interval_load use_time_apparent tier_df) time_periods pq /\
     tier_display tier_df e pa =
       Some (Shown {| total_energy_wh := tier_total_energy tier_df e;
                      peak_real_w := pr;
                      peak_apparent_va := pq;
                      load_allocation_pct :=
                        if Qlt_le_dec 0 pa then pq / pa * 100 else 0;
                      record_count := List.length tier_df |})).
Proof.
  destruct tier_df as [|r tier_df]; [left; split; reflexivity|right].
  split; [discriminate|].
  destruct (peak_of_spec (r :: tier_df) _ _ use_time_real_eq)
    as [pr [Er Hr]].
  destruct (peak_of_spec (r :: tier_df) _ _ use_time_apparent_eq)
    as [pq [Eq Hq]].
  exists pr, pq; split; [exact Hr|split; [exact Hq|]].
  unfold tier_display; cbn [empty negb]; now rewrite Er, Eq.
Qed.

Lemma tier_display_total (tier_df : DataFrame) (e : PeriodFrame) (pa : Q) :
  exists d, tier_display tier_df e pa = Some d.
Proof.
  destruct (tier_display_cases tier_df e pa)
    as [[_ E]|[_ [pr [pq [_ [_ E]]]]]]; rewrite E; eauto.
Qed.

(** [run] never raises; its first block carries the total energy, the two
    unfiltered peaks, the literal 100 % and the number of rows, and its two
    other blocks are the tier blocks computed against the unfiltered apparent
    peak. *)
Lemma run_blocks (raw : DataFrame) :
  exists S peak_load_real peak_load_apparent,
    run raw = Some S /\
    calculate_peak_loads time_periods (table raw) =
      Some (peak_load_real, peak_load_apparent) /\
    all_appliances S =
      {| total_energy_wh := total_energy raw;
         peak_real_w := peak_load_real;
         peak_apparent_va := peak_load_apparent;
         load_allocation_pct := 100;
         record_count := List.length (table raw) |} /\
    forall k,
      tier_display (tier_rows k (table raw)) (energy_table raw)
        peak_load_apparent = Some (block k S).
Proof.
  destruct (peak_loads_are_maxima (table raw)) as [pr [pa [E _]]].
  destruct (tier_display_total (tier_rows EssentialMedium (table raw))
              (energy_table raw) pa) as [d1 E1].
  destruct (tier_display_total (tier_rows EssentialOnly (table raw))
              (energy_table raw) pa) as [d2 E2].
  eexists _, pr, pa; split; [|split; [exact E|split]].
  - change (run raw) with
      (_display_summaries (table raw) (energy_table raw) (total_energy raw)).
    unfold _display_summaries; rewrite E; cbn [bind].
    rewrite essential_medium_as_tier, essential_only_as_tier, E1, E2.
    cbn [bind]; reflexivity.
  - reflexivity.
  - intros [|]; cbn [block essential_medium essential_only]; assumption.
Qed.

(** C4. For every edited table and each filtered tier, the tier block is left
    out when the tier has no row and otherwise shows, as its real and apparent
    peaks, the maximum over the twelve intervals of the sum over the tier's
    rows of [quantity * power * (use_time/100) * is_on] (respectively with the
    apparent power).  The tier is chosen by the lower-cased priority.  For the
    scenario record the essential block shows a real peak of 50 W against an
    unfiltered real peak of 100 W. *)
Theorem tier_peak_loads_spec :
  (forall (raw : DataFrame) (k : Tier),
      exists S,
        run raw = Some S /\
        ((tier_rows k (table raw) = [] /\ block k S = NotShown) \/
         (exists s,
             block k S = Shown s /\
             is_max_over
               (interval_load use_time_real (tier_rows k (table raw)))
               time_periods (peak_real_w s) /\
             is_max_over
               (interval_load use_time_apparent (tier_rows k (table raw)))
               time_periods (peak_apparent_va s)))) /\
  (forall r : Row,
      is_essential r = String.eqb (lower (Priority r)) "essential" /\
      is_essential_or_medium r =
        (String.eqb (lower (Priority r)) "essential"
         || String.eqb (lower (Priority r)) "medium")) /\
  lower "Essential" = "essential"%string /\
  (exists S s,
      run [scenario_row] = Some S /\
      essential_only S = Shown s /\
      peak_real_w s == 50 /\
      peak_real_w (all_appliances S) == 100).
Proof.
  split; [|split; [|split]].
  - intros raw k.
    destruct (run_blocks raw) as [S [pr [pa [ES [_ [_ HB]]]]]].
    exists S; split; [exact ES|].
    specialize (HB k).
    destruct (tier_display_cases (tier_rows k (table raw)) (energy_table raw) pa)
      as [[E0 E]|[_ [qr [qa [Hr [Ha E]]]]]];
      rewrite E in HB; injection HB as <-.
    + now left.
    + right; eexists; split; [reflexivity|]; cbn; auto.
  - intros r; split; [reflexivity|].
    unfold is_essential_or_medium, isin; cbn [existsb].
    now rewrite orb_false_r.
  - reflexivity.
  - eexists _, _; split; [vm_compute; reflexivity|].
    split; [reflexivity|]; split; reflexivity.
Qed.

(** ** The allocation percentage *)

Lemma interval_load_nonneg (w : Row -> Q) (df : DataFrame) (t : Period) :
  Forall (fun r => 0 <= w r) df -> 0 <= interval_load w df t.
Proof.
  intros H; apply Qsum_nonneg; rewrite Forall_map.
  eapply Forall_impl; [|exact H]; cbn; intros r Hr.
  destruct (On r t); cbn [is_on]; lra.
Qed.

Lemma interval_load_filter_le
  (w w' : Row -> Q) (p : Row -> bool) (df : DataFrame) (t : Period) :
  Forall (fun r => 0 <= w' r /\ w r <= w' r) df ->
  interval_load w (filter p df) t <= interval_load w' df t.
Proof.
  unfold interval_load, Qsum.
  induction 1 as [|r df [H0 Hr] _ IH]; cbn [filter map fold_right];
    [apply Qle_refl|].
  destruct (p r); cbn [map fold_right]; destruct (On r t); cbn [is_on]; lra.
Qed.

Lemma valid_use_time_apparent (r : Row) :
  Valid r ->
  0 <= use_time_apparent r /\
  0 <= nameplate_apparent r /\ use_time_apparent r <= nameplate_apparent r.
Proof.
  intros V; pose proof (valid_apparent_nonneg r V) as Ha.
  destruct V as [Hq _ _ _ [Hu0 Hu1] _].
  unfold use_time_apparent, nameplate_apparent.
  assert (0 <= inject_Z (Quantity r) * ApparentPower r) as Hn.
  { apply Qmult_le_0_compat; [|exact Ha].
    change 0 with (inject_Z 0); now rewrite <- Zle_Qle. }
  set (n := inject_Z (Quantity r) * ApparentPower r) in *.
  assert (UseTime r / 100 == UseTime r * (1 # 100)) as -> by (field; discriminate).
  split; [|split; [exact Hn|]].
  - apply Qmult_le_0_compat; lra.
  - rewrite <- (Qmult_1_r n) at 2.
    apply Qmult_le_compat_nonneg; split; lra.
Qed.

Lemma tier_peak_within
  (df : DataFrame) (p : Row -> bool) (pa pq : Q) :
  Forall Valid df ->
  is_max_over (interval_load nameplate_apparent df) time_periods pa ->
  is_max_over (interval_load use_time_apparent (filter p df)) time_periods pq ->
  0 <= pq <= pa.
Proof.
  intros V [_ Hup] [[t [Ht Et]] _]; rewrite Et; split.
  - apply interval_load_nonneg, Forall_forall; intros r Hr.
    apply filter_In in Hr; destruct Hr as [Hr _].
    rewrite Forall_forall in V; now apply valid_use_time_apparent, V.
  - eapply Qle_trans; [|apply (Hup t Ht)].
    apply interval_load_filter_le.
    eapply Forall_impl; [|exact V]; cbn; intros r Hr.
    pose proof (valid_use_time_apparent r Hr); tauto.
Qed.

Lemma allocation_rule (pa pq : Q) :
  0 <= pq <= pa ->
  let pct := if Qlt_le_dec 0 pa then pq / pa * 100 else 0 in
  (0 < pa /\ pct == pq / pa * 100 /\ 0 <= pct <= 100) \/
  (pa == 0 /\ pct == 0).
Proof.
  intros [H0 H1]; cbn zeta; destruct (Qlt_le_dec 0 pa) as [Hpos|Hneg].
  - left; split; [exact Hpos|split; [reflexivity|]].
    assert (0 <= pq / pa) as Hlo
        by (apply Qle_shift_div_l; [exact Hpos|lra]).
    assert (pq / pa <= 1) as Hhi
        by (apply Qle_shift_div_r; [exact Hpos|lra]).
    split; lra.
  - right; split; [lra|reflexivity].
Qed.

(** C5 (as the program has it). For every edited table [run] returns its
    three blocks without error; the all-appliances block always reports the
    literal 100 %; each filtered tier block, when the tier has a row, reports
    [tier_peak_apparent / all_peak_apparent * 100] when the unfiltered
    apparent peak is positive, a value then within [0, 100], and reports 0
    when that peak is 0. *)
Theorem load_allocation_spec (raw : DataFrame) (k : Tier) :
  exists S,
    run raw = Some S /\
    load_allocation_pct (all_appliances S) = 100 /\
    ((tier_rows k (table raw) = [] /\ block k S = NotShown) \/
     (exists s,
         block k S = Shown s /\
         allocation_as_specified (peak_apparent_va (all_appliances S)) s)).
Proof.
  destruct (run_blocks raw) as [S [pr [pa [ES [EP [EA HB]]]]]].
  exists S; split; [exact ES|]; rewrite EA; cbn [load_allocation_pct
    peak_apparent_va]; split; [reflexivity|].
  specialize (HB k).
  destruct (peak_loads_are_maxima (table raw)) as [pr' [pa' [EP' [_ Hpa]]]].
  rewrite EP in EP'; injection EP' as <- <-.
  destruct (tier_display_cases (tier_rows k (table raw)) (energy_table raw) pa)
    as [[E0 E]|[_ [qr [qa [_ [Ha E]]]]]];
    rewrite E in HB; injection HB as <-.
  - now left.
  - right; eexists; split; [reflexivity|].
    unfold allocation_as_specified; cbn [load_allocation_pct peak_apparent_va].
    apply allocation_rule.
    eapply tier_peak_within; [apply table_valid|exact Hpa|exact Ha].
Qed.

(** C5 fails as stated for the all-appliances tier: with a single record of
    quantity 0 the unfiltered apparent peak is 0, yet that block reports
    100 %, not 0. *)
Lemma all_block_allocation_not_zero :
  exists S,
    run [idle_row] = Some S /\
    peak_apparent_va (all_appliances S) == 0 /\
    load_allocation_pct (all_appliances S) == 100 /\
    ~ load_allocation_pct (all_appliances S) == 0.
Proof.
  eexists; split; [vm_compute; reflexivity|].
  split; [reflexivity|split; [reflexivity|discriminate]].
Qed.

(** ** Empty tiers *)

(** C7 (as the program has it). For every edited table whose filtered tier has
    no row, [run] returns without error and leaves the block of that tier out:
    no metric of the tier is shown. *)
Theorem empty_tier_not_shown (raw : DataFrame) (k : Tier) :
  tier_rows k (table raw) = [] ->
  exists S, run raw = Some S /\ block k S = NotShown.
Proof.
  intros E0.
  destruct (run_blocks raw) as [S [pr [pa [ES [_ [_ HB]]]]]].
  exists S; split; [exact ES|].
  specialize (HB k); rewrite E0 in HB; now injection HB as <-.
Qed.

(** The rule at the table holding one non-essential record. *)
Lemma empty_tier_not_shown_witness :
  tier_rows EssentialOnly (table [geyser_row]) = [] /\
  exists S, run [geyser_row] = Some S /\ block EssentialOnly S = NotShown.
Proof.
  split; [reflexivity|].
  apply (empty_tier_not_shown [geyser_row] EssentialOnly); reflexivity.
Defined.

(** C7 fails as stated: for a table holding one non-essential record both
    filtered tiers are empty, the run is not an error, and neither tier block
    is a summary of zeros: both are left out. *)
Lemma empty_tier_no_zero_summary :
  exists S,
    run [geyser_row] = Some S /\
    tier_rows EssentialOnly (table [geyser_row]) = [] /\
    tier_rows EssentialMedium (table [geyser_row]) = [] /\
    ~ zero_summary_shown (essential_only S) /\
    ~ zero_summary_shown (essential_medium S).
Proof.
  eexists; split; [vm_compute; reflexivity|].
  split; [reflexivity|split; [reflexivity|]].
  split; intros [s [E _]]; discriminate E.
Qed.

(** ** Tier energy totals *)

Lemma Qsum_zip_plus (a : list Q) :
  forall b, List.length a = List.length b ->
            Qsum (zip_with Qplus a b) == Qsum a + Qsum b.
Proof.
  unfold Qsum; induction a as [|x a IH]; intros [|y b] H; try discriminate H;
    cbn [zip_with fold_right]; [ring|].
  rewrite IH by (cbn in H; congruence); ring.
Qed.

Lemma Qsum_repeat_zero (n : nat) : Qsum (repeat 0 n) == 0.
Proof.
  unfold Qsum; induction n as [|n IH]; cbn [repeat fold_right];
    [reflexivity|rewrite IH; ring].
Qed.

Lemma zip_with_length {A B C : Type} (f : A -> B -> C) (a : list A) :
  forall b, List.length a = List.length b ->
            List.length (zip_with f a b) = List.length a.
Proof.
  induction a as [|x a IH]; intros [|y b] H; try discriminate H; cbn;
    [reflexivity|].
  now rewrite IH by (cbn in H; congruence).
Qed.

Lemma sum_axis0_length (n : nat) (m : list (list Q)) :
  Forall (fun cells => List.length cells = n) m ->
  List.length (sum_axis0 n m) = n.
Proof.
  induction 1 as [|c m Hc _ IH]; cbn [sum_axis0]; [apply repeat_length|].
  rewrite zip_with_length; congruence.
Qed.

(** Summing the column sums is summing the row sums. *)
Lemma Qsum_sum_axis0 (n : nat) (m : list (list Q)) :
  Forall (fun cells => List.length cells = n) m ->
  Qsum (sum_axis0 n m) == Qsum (map Qsum m).
Proof.
  intros H; induction H as [|c m Hc Hm IH]; cbn [sum_axis0 map].
  - apply Qsum_repeat_zero.
  - rewrite Qsum_zip_plus by (rewrite sum_axis0_length; congruence).
    rewrite IH; reflexivity.
Qed.

Lemma filter_sum_le {A : Type} (g : A -> Q) (p q : A -> bool) (l : list A) :
  (forall x, p x = true -> q x = true) ->
  Forall (fun x => 0 <= g x) l ->
  Qsum (map g (filter p l)) <= Qsum (map g (filter q l)).
Proof.
  intros Hpq; unfold Qsum.
  induction 1 as [|x l Hx _ IH]; cbn [filter map fold_right];
    [apply Qle_refl|].
  destruct (p x) eqn:Ep.
  - rewrite (Hpq x Ep); cbn [map fold_right]; lra.
  - destruct (q x); cbn [map fold_right]; lra.
Qed.

Lemma filter_sum_le_all {A : Type} (g : A -> Q) (q : A -> bool) (l : list A) :
  Forall (fun x => 0 <= g x) l ->
  Qsum (map g (filter q l)) <= Qsum (map g l).
Proof.
  unfold Qsum; induction 1 as [|x l Hx _ IH]; cbn [filter map fold_right];
    [apply Qle_refl|].
  destruct (q x); cbn [map fold_right]; lra.
Qed.

Lemma isin_In (s : string) (values : list string) :
  isin s values = true <-> In s values.
Proof.
  unfold isin; rewrite existsb_exists; split.
  - intros [v [Hv E]]; apply String.eqb_eq in E; now subst.
  - intros H; exists s; split; [exact H|apply String.eqb_refl].
Qed.

Lemma essential_is_essential_or_medium (r : Row) :
  is_essential r = true -> is_essential_or_medium r = true.
Proof.
  unfold is_essential, is_essential_or_medium, isin; cbn [existsb].
  now intros ->.
Qed.

Lemma validated_valid (raw : DataFrame) : Forall Valid (validated raw).
Proof.
  unfold validated, validate_df; rewrite map_map, Forall_map, Forall_forall.
  intros r0 _.
  pose proof (validate_row_ranges r0) as H.
  constructor; cbn; try tauto; reflexivity.
Qed.

Lemma compute_energy_nonneg (r : Row) :
  Valid r -> Forall (fun x => 0 <= x) (compute_energy time_periods r).
Proof.
  intros [Hq Hp [Hd _] _ [Hu _] _].
  unfold compute_energy; rewrite Forall_map, Forall_forall; intros t _.
  assert (0 <= inject_Z (2 * Quantity r)) as H2
      by (change 0 with (inject_Z 0); rewrite <- Zle_Qle; lia).
  assert (0 <= inject_Z (int (On r t))) as Hb
      by (destruct (On r t); discriminate).
  assert (0 <= DutyCycle r / 100) as Hd'
      by (apply Qle_shift_div_l; [reflexivity|lra]).
  assert (0 <= UseTime r / 100) as Hu'
      by (apply Qle_shift_div_l; [reflexivity|lra]).
  cbn zeta.
  apply Qmult_le_0_compat; [|exact Hb].
  apply Qmult_le_0_compat; [|exact Hu'].
  apply Qmult_le_0_compat; [|exact Hd'].
  apply Qmult_le_0_compat; assumption.
Qed.

Lemma energy_table_shape (raw : DataFrame) :
  Forall (fun e => List.length (cells e) = List.length time_periods /\
                   0 <= Qsum (cells e))
         (energy_table raw).
Proof.
  unfold energy_table, apply_rows; rewrite Forall_map; cbn [cells].
  eapply Forall_impl; [|apply validated_valid]; intros r V; cbn beta; split.
  - unfold compute_energy; apply length_map.
  - now apply Qsum_nonneg, compute_energy_nonneg.
Qed.

(** The energy total of a tier: the daily energies of the rows of the energy
    table whose appliance name occurs in the tier. *)
Lemma tier_total_energy_by_name (raw tier_df : DataFrame) :
  tier_total_energy tier_df (energy_table raw) ==
  Qsum (map (fun e => Qsum (cells e))
          (filter (fun e => isin (appliance e) (map Appliance tier_df))
                  (energy_table raw))).
Proof.
  unfold tier_total_energy; rewrite Qsum_sum_axis0, map_map; [reflexivity|].
  rewrite Forall_map, Forall_forall; intros e He.
  apply filter_In in He; destruct He as [He _].
  pose proof (energy_table_shape raw) as H; rewrite Forall_forall in H.
  now apply H.
Qed.

Lemma total_energy_by_row (raw : DataFrame) :
  total_energy raw = Qsum (map (fun e => Qsum (cells e)) (energy_table raw)).
Proof.
  unfold total_energy; rewrite table_rows.
  unfold energy_table, apply_rows, validated, validate_df.
  now rewrite !map_map.
Qed.

(** C8. For every edited table (whether or not the names are unique) the
    essential-only energy total is at most the essential+medium total, which
    is at most the all-appliances total; these are the totals the blocks of
    [run] show. *)
Theorem tier_energy_monotone (raw : DataFrame) :
  let df := table raw in
  let energy_df := energy_table raw in
  tier_total_energy (tier_rows EssentialOnly df) energy_df <=
    tier_total_energy (tier_rows EssentialMedium df) energy_df /\
  tier_total_energy (tier_rows EssentialMedium df) energy_df <=
    total_energy raw /\
  exists S,
    run raw = Some S /\
    total_energy_wh (all_appliances S) = total_energy raw /\
    forall k,
      (tier_rows k df = [] /\ block k S = NotShown) \/
      (exists s,
          block k S = Shown s /\
          total_energy_wh s = tier_total_energy (tier_rows k df) energy_df).
Proof.
  cbn zeta.
  pose proof (energy_table_shape raw) as Hs.
  assert (Forall (fun e => 0 <= Qsum (cells e)) (energy_table raw)) as Hn
      by (eapply Forall_impl; [|exact Hs]; cbn; tauto).
  split; [|split].
  - rewrite !tier_total_energy_by_name.
    apply filter_sum_le; [|exact Hn].
    intros e He; rewrite isin_In in *.
    apply in_map_iff in He; destruct He as [r [Er Hr]].
    apply in_map_iff; exists r; split; [exact Er|].
    unfold tier_rows in *; rewrite filter_In in *.
    split; [tauto|now apply essential_is_essential_or_medium].
  - rewrite tier_total_energy_by_name, total_energy_by_row.
    now apply filter_sum_le_all.
  - destruct (run_blocks raw) as [S [pr [pa [ES [_ [EA HB]]]]]].
    exists S; split; [exact ES|split; [now rewrite EA|]].
    intros k; specialize (HB k).
    destruct (tier_display_cases (tier_rows k (table raw)) (energy_table raw) pa)
      as [[E0 E]|[_ [qr [qa [_ [_ E]]]]]];
      rewrite E in HB; injection HB as <-.
    + now left.
    + right; eexists; split; reflexivity.
Qed.


(** * Further properties of the code *)

(** ** The validator on in-range tables *)

Lemma clip_in_range (x lower : Q) (upper : option Q) :
  lower <= x ->
  match upper with Some u => x <= u | None => True end ->
  clip x lower upper = x.
Proof.
  unfold clip; destruct upper as [u|]; intros H1 H2;
    repeat destruct Qlt_le_dec; try reflexivity; exfalso; lra.
Qed.

Lemma validate_row_fixed (r : Row) : validate_row r = r <-> InRange r.
Proof.
  split.
  - intros E; pose proof (validate_row_ranges r) as H; rewrite E in H.
    constructor; tauto.
  - intros [Hq Hp [Hd0 Hd1] [Hf0 Hf1] [Hu0 Hu1]].
    destruct r as [a q p d f u o pr ro ap te]; cbn in *.
    unfold validate_row; cbn [Appliance Quantity Power DutyCycle PowerFactor
      UseTime On Priority Room ApparentPower TotalDailyEnergy].
    rewrite !clip_in_range by (cbn; trivial).
    unfold clipZ; destruct (Z.ltb_spec q 0); [lia|reflexivity].
Qed.

(** X1. The validator changes a table exactly when some record is out of
    range: a table is returned as it is if and only if every record has a
    non-negative quantity and power, duty cycle and use time within [0, 100]
    and a power factor within [0.01, 1]. *)
Theorem validate_df_fixed_iff_in_range (df : DataFrame) :
  validate_df df = df <-> Forall InRange df.
Proof.
  unfold validate_df; induction df as [|r df IH]; cbn [map].
  - split; [constructor|reflexivity].
  - split.
    + intros [= Er Ed]; constructor; [now apply validate_row_fixed|tauto].
    + intros H; inversion H as [|? ? Hr Hd]; subst.
      f_equal; [now apply validate_row_fixed|tauto].
Qed.

(** ** Energy against nameplate power *)

Lemma inject_Z_nonneg (z : Z) : (0 <= z)%Z -> 0 <= inject_Z z.
Proof. intros H; change 0 with (inject_Z 0); now rewrite <- Zle_Qle. Qed.

Lemma percent_unit (x : Q) : 0 <= x <= 100 -> 0 <= x / 100 <= 1.
Proof.
  intros [H0 H1].
  assert (x / 100 == x * (1 # 100)) as -> by (field; discriminate); lra.
Qed.

Lemma scale_by_unit (a c : Q) : 0 <= a -> 0 <= c <= 1 -> 0 <= a * c <= a.
Proof.
  intros Ha [H0 H1]; split; [now apply Qmult_le_0_compat|].
  rewrite <- (Qmult_1_r a) at 2.
  apply Qmult_le_compat_nonneg; split; lra.
Qed.

Lemma energy_cell_bounds (q : Z) (p d u : Q) (b : bool) :
  (0 <= q)%Z -> 0 <= p -> 0 <= d <= 100 -> 0 <= u <= 100 ->
  let e := inject_Z (2 * q) * p * (d / 100) * (u / 100) * inject_Z (int b) in
  let w := inject_Z q * p * inject_Z (int b) in
  0 <= e <= 2 * w /\ w <= inject_Z q * p.
Proof.
  intros Hq Hp Hd Hu; cbn zeta.
  pose proof (inject_Z_nonneg q Hq) as Hq'.
  assert (0 <= inject_Z q * p) as Ha by now apply Qmult_le_0_compat.
  set (a := inject_Z q * p) in *.
  pose proof (scale_by_unit a _ Ha (percent_unit d Hd)) as [H1 H2].
  pose proof (scale_by_unit _ _ H1 (percent_unit u Hu)) as [H3 H4].
  assert (inject_Z (2 * q) * p * (d / 100) * (u / 100) ==
          2 * (a * (d / 100) * (u / 100))) as ->.
  { rewrite inject_Z_mult; change (inject_Z 2) with 2; unfold a; ring. }
  destruct b; cbn [int]; [change (inject_Z 1) with 1|change (inject_Z 0) with 0];
    split; try split; lra.
Qed.

Lemma Qsum_bounded (c : Q) (l : list Q) :
  Forall (fun x => 0 <= x <= c) l ->
  0 <= Qsum l <= inject_Z (Z.of_nat (List.length l)) * c.
Proof.
  unfold Qsum; induction 1 as [|x l [H0 H1] _ IH];
    cbn [fold_right List.length].
  - cbn; split; [apply Qle_refl|]; rewrite Qmult_0_l; apply Qle_refl.
  - rewrite Nat2Z.inj_succ, <- Z.add_1_r, inject_Z_plus.
    change (inject_Z 1) with 1; lra.
Qed.

(** X2. For every record of the table built by [run]: each interval's energy
    lies between 0 and two hours of that interval's average power, and the
    daily energy lies between 0 and 24 hours of the nameplate power
    [quantity * power]. *)
Theorem energy_within_nameplate (raw : DataFrame) :
  Forall (fun r =>
            Forall2 (fun e w => 0 <= e <= 2 * w)
              (compute_energy time_periods r)
              (compute_average_power time_periods r) /\
            0 <= TotalDailyEnergy r <= 24 * (inject_Z (Quantity r) * Power r))
         (table raw).
Proof.
  rewrite table_rows, Forall_map, Forall_forall; intros r0 _.
  pose proof (validate_row_ranges r0) as [Hu [Hd [Hp [Hq _]]]].
  set (r := with_apparent_power (validate_row r0)).
  cbn [TotalDailyEnergy Quantity Power set_total_daily_energy].
  change (compute_energy time_periods (set_total_daily_energy r _))
    with (compute_energy time_periods r).
  change (compute_average_power time_periods (set_total_daily_energy r _))
    with (compute_average_power time_periods r).
  assert (forall t,
             let e := inject_Z (2 * Quantity r) * Power r * (DutyCycle r / 100)
                      * (UseTime r / 100) * inject_Z (int (On r t)) in
             let w := inject_Z (Quantity r) * Power r * inject_Z (int (On r t)) in
             0 <= e <= 2 * w /\ w <= inject_Z (Quantity r) * Power r) as Hc
      by (intros t; now apply energy_cell_bounds).
  split.
  - unfold compute_energy, compute_average_power.
    induction time_periods as [|t ts IH]; cbn [map]; constructor;
      [apply (Hc t)|exact IH].
  - pose proof (Qsum_bounded (2 * (inject_Z (Quantity r) * Power r))
                  (compute_energy time_periods r)) as HS.
    assert (List.length (compute_energy time_periods r) = 12%nat) as HL
        by reflexivity.
    rewrite HL in HS; change (inject_Z (Z.of_nat 12)) with 12 in HS.
    assert (Forall
              (fun x => 0 <= x <= 2 * (inject_Z (Quantity r) * Power r))
              (compute_energy time_periods r)) as HF.
    { unfold compute_energy; rewrite Forall_map, Forall_forall; intros t _.
      destruct (Hc t) as [[H0 H1] H2]; cbn zeta in *; split; lra. }
    specialize (HS HF); lra.
Qed.

(** ** The zero-energy warning *)

Lemma Qsum_zero_iff (l : list Q) :
  Forall (fun x => 0 <= x) l ->
  (Qsum l == 0 <-> Forall (fun x => x == 0) l).
Proof.
  intros H; induction H as [|x l Hx Hl IH]; unfold Qsum in *;
    cbn [fold_right].
  - split; [constructor|reflexivity].
  - pose proof (Qsum_nonneg l Hl) as Hs; unfold Qsum in Hs; split.
    + intros E; constructor; [lra|apply IH; lra].
    + intros F; inversion F as [|? ? E0 F0]; subst.
      apply IH in F0; lra.
Qed.

Lemma scaled_schedule_zero (c : Q) (f : Period -> bool) (ts : list Period) :
  Forall (fun x => x == 0) (map (fun t => c * inject_Z (int (f t))) ts) <->
  c == 0 \/ forallb (fun t => negb (f t)) ts = true.
Proof.
  induction ts as [|t ts IH]; cbn [map forallb].
  - split; [now right|constructor].
  - split.
    + intros F; inversion F as [|? ? E0 F0]; subst.
      apply IH in F0; destruct F0 as [E|E]; [now left|].
      destruct (f t); cbn [int negb andb] in *; [left|now right].
      change (inject_Z 1) with 1 in E0; lra.
    + intros [E|E].
      * constructor; [rewrite E; ring|apply IH; now left].
      * apply andb_true_iff in E; destruct E as [E1 E2].
        constructor; [|apply IH; now right].
        destruct (f t); [discriminate E1|].
        cbn [int]; change (inject_Z 0) with 0; ring.
Qed.

Lemma derating_zero (q : Z) (p d u : Q) :
  inject_Z (2 * q) * p * (d / 100) * (u / 100) == 0 <->
  ((q =? 0)%Z || Qeq_bool p 0 || Qeq_bool d 0 || Qeq_bool u 0) = true.
Proof.
  rewrite !orb_true_iff, Z.eqb_eq, !Qeq_bool_iff; split.
  - intros E.
    apply Qmult_integral in E; destruct E as [E|E].
    + apply Qmult_integral in E; destruct E as [E|E].
      * apply Qmult_integral in E; destruct E as [E|E]; [|tauto].
        left; left; left.
        unfold Qeq in E; cbn [Qnum Qden inject_Z] in E; lia.
      * left; right.
        assert (d == d / 100 * 100) as -> by (field; discriminate).
        rewrite E; ring.
    + right.
      assert (u == u / 100 * 100) as -> by (field; discriminate).
      rewrite E; ring.
  - intros [[[E|E]|E]|E].
    + subst q; cbn [Z.mul]; change (inject_Z 0) with 0; ring.
    + rewrite E; ring.
    + rewrite E; field.
    + rewrite E; field.
Qed.

(** X3. The zero-energy warning of the charts page names exactly the records
    that cannot draw energy after validation: quantity 0, power 0, duty cycle
    0, use time 0, or no scheduled period. *)
Theorem zero_energy_warning (raw : DataFrame) :
  zero_energy_appliances (table raw) =
  map Appliance (filter idle (table raw)).
Proof.
  unfold zero_energy_appliances; f_equal; apply filter_ext_in.
  intros r Hr; rewrite table_rows in Hr.
  apply in_map_iff in Hr; destruct Hr as [r0 [<- _]].
  set (r := with_apparent_power (validate_row r0)).
  cbn [TotalDailyEnergy set_total_daily_energy].
  apply eq_true_iff_eq; rewrite Qeq_bool_iff.
  assert (Forall (fun x => 0 <= x) (compute_energy time_periods r)) as Hn.
  { apply compute_energy_nonneg.
    pose proof (validated_valid [r0]) as V; now inversion V. }
  rewrite (Qsum_zero_iff _ Hn).
  unfold compute_energy; cbn zeta; rewrite scaled_schedule_zero, derating_zero.
  unfold idle; cbn [Quantity Power DutyCycle UseTime On set_total_daily_energy].
  symmetry; apply orb_true_iff.
Qed.

(** ** Peaks across the tiers *)

Lemma is_max_over_le (f g : Period -> Q) (ts : list Period) (m m' : Q) :
  is_max_over f ts m -> is_max_over g ts m' ->
  (forall t, f t <= g t) -> m <= m'.
Proof.
  intros [[t [Ht Et]] _] [_ Hup] Hfg; rewrite Et.
  eapply Qle_trans; [apply Hfg|now apply Hup].
Qed.

Lemma interval_load_filter_mono
  (w : Row -> Q) (p q : Row -> bool) (df : DataFrame) (t : Period) :
  (forall r, p r = true -> q r = true) ->
  Forall (fun r => 0 <= w r) df ->
  interval_load w (filter p df) t <= interval_load w (filter q df) t.
Proof.
  intros Hpq H; unfold interval_load.
  apply (filter_sum_le (fun r => w r * is_on (On r t)) p q df Hpq).
  eapply Forall_impl; [|exact H]; cbn; intros r Hr.
  destruct (On r t); cbn [is_on]; lra.
Qed.

Lemma valid_use_time_real (r : Row) :
  Valid r ->
  0 <= use_time_real r /\
  0 <= nameplate_real r /\ use_time_real r <= nameplate_real r.
Proof.
  intros [Hq Hp _ _ Hu _]; unfold use_time_real, nameplate_real.
  assert (0 <= inject_Z (Quantity r) * Power r) as Hn
      by (apply Qmult_le_0_compat; [now apply inject_Z_nonneg|exact Hp]).
  pose proof (scale_by_unit _ _ Hn (percent_unit _ Hu)); tauto.
Qed.

Lemma in_tier_nested (r : Row) :
  in_tier EssentialOnly r = true -> in_tier EssentialMedium r = true.
Proof. apply essential_is_essential_or_medium. Qed.

(** X4. The peaks shown by the three blocks are nested: the essential-only
    block, when shown, comes with an essential+medium block whose real and
    apparent peaks are at least as large, and the peaks of a shown
    essential+medium block are at most the all-appliances peaks. *)
Theorem tier_peaks_monotone (raw : DataFrame) :
  exists S,
    run raw = Some S /\
    match essential_only S, essential_medium S with
    | Shown s1, Shown s2 =>
        peaks_within s1 s2 /\ peaks_within s2 (all_appliances S)
    | NotShown, Shown s2 =>
        tier_rows EssentialOnly (table raw) = [] /\
        peaks_within s2 (all_appliances S)
    | NotShown, NotShown => tier_rows EssentialMedium (table raw) = []
    | Shown _, NotShown => False
    end.
Proof.
  destruct (run_blocks raw) as [S [pr [pa [ES [EP [EA HB]]]]]].
  exists S; split; [exact ES|].
  destruct (peak_loads_are_maxima (table raw)) as [pr' [pa' [EP' [Hpr Hpa]]]].
  rewrite EP in EP'; injection EP' as <- <-.
  pose proof (table_valid raw) as V.
  assert (forall p s qr qa,
             is_max_over (interval_load use_time_real (filter p (table raw)))
               time_periods qr ->
             is_max_over (interval_load use_time_apparent (filter p (table raw)))
               time_periods qa ->
             peak_real_w s = qr -> peak_apparent_va s = qa ->
             peaks_within s (all_appliances S)) as Hall.
  { intros p s qr qa Hr Ha E1 E2; unfold peaks_within.
    rewrite EA, E1, E2; cbn [peak_real_w peak_apparent_va]; split.
    - apply (is_max_over_le _ _ _ _ _ Hr Hpr); intros t.
      apply interval_load_filter_le.
      eapply Forall_impl; [|exact V]; cbn; intros r Hv.
      pose proof (valid_use_time_real r Hv); tauto.
    - apply (is_max_over_le _ _ _ _ _ Ha Hpa); intros t.
      apply interval_load_filter_le.
      eapply Forall_impl; [|exact V]; cbn; intros r Hv.
      pose proof (valid_use_time_apparent r Hv); tauto. }
  pose proof (HB EssentialOnly) as B1; pose proof (HB EssentialMedium) as B2.
  cbn [block] in B1, B2.
  destruct (tier_display_cases (tier_rows EssentialOnly (table raw))
              (energy_table raw) pa)
    as [[Z1 E1]|[N1 [r1 [a1 [Hr1 [Ha1 E1]]]]]];
    rewrite E1 in B1; injection B1 as <-;
    destruct (tier_display_cases (tier_rows EssentialMedium (table raw))
                (energy_table raw) pa)
      as [[Z2 E2]|[N2 [r2 [a2 [Hr2 [Ha2 E2]]]]]];
    rewrite E2 in B2; injection B2 as <-.
  - exact Z2.
  - split; [exact Z1|]; eapply Hall; [exact Hr2|exact Ha2| |]; reflexivity.
  - apply N1; unfold tier_rows in *.
    destruct (filter (in_tier EssentialOnly) (table raw)) as [|r l] eqn:F;
      [reflexivity|exfalso].
    assert (In r (filter (in_tier EssentialMedium) (table raw))) as Hin.
    { assert (In r (r :: l)) as Hr by now left.
      rewrite <- F in Hr; rewrite filter_In in *.
      split; [tauto|now apply in_tier_nested]. }
    now rewrite Z2 in Hin.
  - split; [|eapply Hall; [exact Hr2|exact Ha2| |]; reflexivity].
    unfold peaks_within; cbn [peak_real_w peak_apparent_va]; split.
    + apply (is_max_over_le _ _ _ _ _ Hr1 Hr2); intros t.
      apply interval_load_filter_mono; [exact in_tier_nested|].
      eapply Forall_impl; [|exact V]; cbn; intros r Hv.
      pose proof (valid_use_time_real r Hv); tauto.
    + apply (is_max_over_le _ _ _ _ _ Ha1 Ha2); intros t.
      apply interval_load_filter_mono; [exact in_tier_nested|].
      eapply Forall_impl; [|exact V]; cbn; intros r Hv.
      pose proof (valid_use_time_apparent r Hv); tauto.
Qed.

(** ** Tier energy under unique names *)

Lemma NoDup_map_injective {A B : Type} (f : A -> B) (l : list A) :
  NoDup (map f l) ->
  forall a b, In a l -> In b l -> f a = f b -> a = b.
Proof.
  induction l as [|x l IH]; cbn [map]; intros N a b Ha Hb E; [destruct Ha|].
  inversion N as [|? ? Hx Hl]; subst.
  destruct Ha as [<-|Ha], Hb as [<-|Hb]; trivial.
  - exfalso; apply Hx; rewrite E; now apply in_map.
  - exfalso; apply Hx; rewrite <- E; now apply in_map.
  - now apply IH.
Qed.

Lemma sum_filter_two_maps {A B C : Type}
  (h : A -> B) (g : A -> C) (P : B -> bool) (R : C -> bool)
  (F : B -> Q) (G : C -> Q) (l : list A) :
  (forall a, In a l -> P (h a) = R (g a) /\ F (h a) == G (g a)) ->
  Qsum (map F (filter P (map h l))) == Qsum (map G (filter R (map g l))).
Proof.
  unfold Qsum; induction l as [|a l IH]; intros H; cbn [map filter fold_right];
    [reflexivity|].
  destruct (H a (or_introl eq_refl)) as [E1 E2]; rewrite <- E1.
  assert (forall a', In a' l -> P (h a') = R (g a') /\ F (h a') == G (g a'))
    as H' by (intros a' Ha'; apply H; now right).
  destruct (P (h a)); cbn [map fold_right]; rewrite (IH H');
    [now rewrite E2|reflexivity].
Qed.

(** X5. When the appliance names of the edited table are pairwise distinct,
    the energy total of each filtered tier is the sum of the daily energies of
    the records of that tier. *)
Theorem tier_energy_with_unique_names (raw : DataFrame) (k : Tier) :
  NoDup (map Appliance raw) ->
  tier_total_energy (tier_rows k (table raw)) (energy_table raw) ==
  Qsum (map TotalDailyEnergy (tier_rows k (table raw))).
Proof.
  intros N; rewrite tier_total_energy_by_name.
  set (g := fun r0 =>
              let r := with_apparent_power (validate_row r0) in
              set_total_daily_energy r (Qsum (compute_energy time_periods r))).
  set (h := fun r0 =>
              {| cells := compute_energy time_periods
                            (with_apparent_power (validate_row r0));
                 appliance := Appliance r0 |}).
  assert (table raw = map g raw) as Et by apply table_rows.
  assert (energy_table raw = map h raw) as Ee.
  { unfold energy_table, apply_rows, validated, validate_df.
    now rewrite !map_map. }
  unfold tier_rows; rewrite Et, Ee.
  apply sum_filter_two_maps; intros r0 Hr0; split; [|reflexivity].
  apply eq_true_iff_eq; rewrite isin_In; cbn [appliance h]; split.
  - intros Hin; apply in_map_iff in Hin; destruct Hin as [r [En Hr]].
    apply filter_In in Hr; destruct Hr as [Hr Hk].
    apply in_map_iff in Hr; destruct Hr as [r1 [<- Hr1]].
    assert (r1 = r0) as -> by (apply (NoDup_map_injective Appliance raw N);
                               trivial).
    exact Hk.
  - intros Hk; apply in_map_iff; exists (g r0); split; [reflexivity|].
    apply filter_In; split; [now apply in_map|exact Hk].
Qed.

(** The rule at a table of two records with different names. *)
Lemma tier_energy_with_unique_names_witness :
  NoDup (map Appliance [scenario_row; geyser_row]) /\
  tier_total_energy
    (tier_rows EssentialOnly (table [scenario_row; geyser_row]))
    (energy_table [scenario_row; geyser_row]) ==
  Qsum (map TotalDailyEnergy
          (tier_rows EssentialOnly (table [scenario_row; geyser_row]))).
Proof.
  assert (NoDup (map Appliance [scenario_row; geyser_row])) as N.
  { cbn; repeat constructor; cbn; intuition discriminate. }
  split; [exact N|].
  exact (tier_energy_with_unique_names [scenario_row; geyser_row]
           EssentialOnly N).
Defined.

(** ** Period labels and the column order of the editor *)

(** X6. The labels built by [_make_time_periods] are, in order, the twelve
    period columns created by [init_db] (so every [row[t]] finds its column);
    they are pairwise distinct, each period ends where the next one starts and
    the last one wraps to "00:00". *)
Theorem time_period_labels_match_schema :
  time_period_labels = firstn 12 (skipn 7 appliances_columns) /\
  map period_label time_periods = time_period_labels /\
  NoDup time_period_labels /\
  map end_hour time_periods =
    (tl (map start_hour time_periods) ++ [0%nat])%list.
Proof.
  split; [reflexivity|split; [reflexivity|split; [|reflexivity]]].
  apply (NoDup_map_inv (String.substring 0 2)).
  vm_compute.
  repeat (constructor; [cbn; intuition discriminate|]); constructor.
Qed.

Lemma filter_split_permutation {A : Type} (p : A -> bool) (l : list A) :
  Permutation l (filter p l ++ filter (fun a => negb (p a)) l).
Proof.
  induction l as [|a l IH]; cbn [filter]; [constructor|].
  destruct (p a); cbn [negb app].
  - now constructor.
  - now apply Permutation_cons_app.
Qed.

Lemma desired_order_NoDup : NoDup desired_order.
Proof.
  vm_compute.
  repeat (constructor; [cbn; intuition discriminate|]); constructor.
Qed.

(** X7. The data editor only reorders the columns of a table with distinct
    column names: the order it imposes is a permutation of the table's
    columns, the known columns first in their fixed order (the twelve period
    columns side by side) and the unknown ones after them. *)
Theorem ordered_is_permutation (columns : list string) :
  NoDup columns ->
  Permutation (ordered columns) columns /\
  exists known unknown,
    ordered columns = (known ++ unknown)%list /\
    known = filter (fun c => isin c columns) desired_order /\
    Forall (fun c => ~ In c desired_order) unknown.
Proof.
  intros N; split.
  - unfold ordered.
    etransitivity;
      [|symmetry;
        apply (filter_split_permutation (fun c => isin c desired_order))].
    apply Permutation_app_tail, NoDup_Permutation.
    + apply NoDup_filter, desired_order_NoDup.
    + now apply NoDup_filter.
    + intros c; rewrite !filter_In, !isin_In; tauto.
  - eexists _, _; split; [reflexivity|split; [reflexivity|]].
    rewrite Forall_forall; intros c Hc.
    apply filter_In in Hc; destruct Hc as [_ Hc].
    rewrite <- isin_In; now destruct (isin c desired_order).
Qed.

(** The rule at the columns of the [appliances] table: only [id] moves, to
    the end. *)
Lemma ordered_is_permutation_witness :
  NoDup appliances_columns /\
  ordered appliances_columns = (desired_order ++ ["id"%string])%list /\
  Permutation (ordered appliances_columns) appliances_columns.
Proof.
  assert (NoDup appliances_columns) as N.
  { vm_compute.
    repeat (constructor; [cbn; intuition discriminate|]); constructor. }
  split; [exact N|split; [reflexivity|]].
  exact (proj1 (ordered_is_permutation appliances_columns N)).
Defined.

(** ** The load curves of the charts *)

Lemma Forall2_Qeq_le (l l' : list Q) (f g : Period -> Q) (ts : list Period) :
  Forall2 Qeq l (map f ts) -> Forall2 Qeq l' (map g ts) ->
  (forall t, f t <= g t) -> Forall2 Qle l l'.
Proof.
  revert l l'; induction ts as [|t ts IH]; cbn [map]; intros l l' H H' Hfg;
    inversion H; subst; inversion H'; subst; constructor.
  - match goal with
    | [ E1 : _ == f t, E2 : _ == g t |- _ ] => rewrite E1, E2; apply Hfg
    end.
  - now apply IH.
Qed.

Lemma profile_of_interval_load (df : DataFrame) (w : Row -> Q) :
  Forall2 Qeq (profile_of time_periods df w)
          (map (interval_load w df) time_periods).
Proof. apply sum_axis0_interval_load. Qed.

(** The column sums of the average-power table are the nameplate loads. *)
Lemma average_power_sums (tps : list Period) (df : DataFrame) :
  Forall2 Qeq
    (sum_axis0 (List.length tps)
       (map cells (apply_rows (compute_average_power tps) df)))
    (map (interval_load nameplate_real df) tps).
Proof.
  induction df as [|r df IH].
  - cbn; rewrite repeat_zero_map; now apply Forall2_map_Qeq.
  - cbn [apply_rows map cells sum_axis0].
    apply (zip_plus_maps (fun t => nameplate_real r * is_on (On r t))
                         (interval_load nameplate_real df)).
    + unfold compute_average_power; apply Forall2_map_Qeq; intros t.
      rewrite inject_int; reflexivity.
    + exact IH.
Qed.

Lemma apply_rows_table (f : Row -> Series) (raw : DataFrame) :
  (forall r e, f (set_total_daily_energy r e) = f r) ->
  apply_rows f (table raw) = apply_rows f (validated raw).
Proof.
  intros Hf; unfold table, energy_table.
  rewrite with_total_daily_energy_map.
  unfold apply_rows; rewrite map_map; apply map_ext; intros r.
  now rewrite Hf.
Qed.

(** X8. The "Total Load" curve of the power chart and the "All Appliances"
    curve of the comparison chart are one and the same list; its value in each
    interval is the sum over all records of [quantity * power * is_on]; and the
    real peak reported by the summaries is the maximum of that curve. *)
Theorem all_curve_and_peak (raw : DataFrame) :
  let curve := all_profile (_display_comparison_charts (table raw)) in
  total_load (apply_rows (compute_average_power time_periods) (validated raw))
    = curve /\
  Forall2 Qeq curve
    (map (interval_load nameplate_real (table raw)) time_periods) /\
  exists peak_load_real peak_load_apparent,
    calculate_peak_loads time_periods (table raw) =
      Some (peak_load_real, peak_load_apparent) /\
    (exists x, In x curve /\ peak_load_real == x) /\
    Forall (fun x => x <= peak_load_real) curve.
Proof.
  cbn zeta; cbn [_display_comparison_charts all_profile].
  split; [|split].
  - unfold total_load; now rewrite apply_rows_table.
  - apply average_power_sums.
  - destruct (peak_loads_are_maxima (table raw))
      as [pr [pa [E [[[t [Ht Et]] Hup] _]]]].
    exists pr, pa; split; [exact E|].
    pose proof (average_power_sums time_periods (table raw)) as HF; split.
    + destruct (Forall2_In_r _ _ _ HF (interval_load nameplate_real (table raw) t))
        as [x [Hx Ex]]; [now apply in_map|].
      exists x; split; [exact Hx|now rewrite Ex].
    + rewrite Forall_forall; intros x Hx.
      destruct (Forall2_In_l _ _ _ HF x Hx) as [y [Hy Exy]].
      apply in_map_iff in Hy; destruct Hy as [t' [<- Ht']].
      rewrite Exy; now apply Hup.
Qed.

Lemma filter_twice {A : Type} (p q : A -> bool) (l : list A) :
  filter q (filter p l) = filter (fun a => p a && q a) l.
Proof.
  induction l as [|a l IH]; cbn [filter]; [reflexivity|].
  destruct (p a); cbn [filter andb]; [destruct (q a)|]; now rewrite IH.
Qed.

Lemma valid_nameplate_nonneg (df : DataFrame) :
  Forall Valid df ->
  Forall (fun r => 0 <= nameplate_real r /\ nameplate_real r <= nameplate_real r)
         df.
Proof.
  intros V; eapply Forall_impl; [|exact V]; cbn; intros r Hv.
  pose proof (valid_use_time_real r Hv); split; [tauto|apply Qle_refl].
Qed.

(** X9. In the comparison chart the essential+medium curve (which leaves out
    every appliance whose name holds "geyser" or "stove", in any case) and the
    essentials-only curve lie, interval by interval, at or below the
    all-appliances curve.  The essentials-only curve is not bounded by the
    essential+medium one: an essential "Camping Stove" is drawn in the former
    and left out of the latter. *)
Theorem comparison_curves_nested :
  (forall raw : DataFrame,
      let C := _display_comparison_charts (table raw) in
      Forall2 Qle (ess_med_profile C) (all_profile C) /\
      Forall2 Qle (ess_profile C) (all_profile C) /\
      Forall2 Qeq (ess_med_profile C)
        (map (interval_load nameplate_real
                (filter (fun r => is_essential_or_medium r
                                  && negb (contains_geyser_or_stove (Appliance r)))
                        (table raw)))
             time_periods)) /\
  (let C := _display_comparison_charts (table [camping_stove]) in
   exists e m,
     at_period (ess_profile C) P00 = Some e /\
     at_period (ess_med_profile C) P00 = Some m /\
     e == 700 /\ m == 0).
Proof.
  split.
  - intros raw; cbn zeta.
    cbn [_display_comparison_charts all_profile ess_med_profile ess_profile].
    pose proof (valid_nameplate_nonneg _ (table_valid raw)) as V.
    pose proof (average_power_sums time_periods (table raw)) as HA.
    assert (forall (df : DataFrame),
               Forall2 Qeq
                 (profile_of time_periods df
                    (fun r => inject_Z (Quantity r) * Power r))
                 (map (interval_load nameplate_real df) time_periods)) as HP
        by (intros df; apply profile_of_interval_load).
    split; [|split].
    + rewrite filter_twice.
      eapply Forall2_Qeq_le; [apply HP|exact HA|].
      intros t; now apply interval_load_filter_le.
    + eapply Forall2_Qeq_le; [apply HP|exact HA|].
      intros t; now apply interval_load_filter_le.
    + rewrite filter_twice; apply HP.
  - cbn zeta; eexists _, _; split; [vm_compute; reflexivity|].
    split; [vm_compute; reflexivity|split; reflexivity].
Qed.

(** ** Look-ups by appliance name *)

Lemma first_named_found (df : DataFrame) (r : Row) :
  In r df ->
  exists r1, first_named df (Appliance r) = Some r1 /\
             In r1 df /\ Appliance r1 = Appliance r.
Proof.
  intros Hr; unfold first_named.
  destruct (find _ df) as [r1|] eqn:E.
  - apply find_some in E; destruct E as [H1 H2].
    apply String.eqb_eq in H2; eauto.
  - apply (find_none _ _ E) in Hr; now rewrite String.eqb_refl in Hr.
Qed.

Lemma first_named_unique (df : DataFrame) :
  NoDup (map Appliance df) ->
  forall r, In r df -> first_named df (Appliance r) = Some r.
Proof.
  intros N r Hr.
  destruct (first_named_found df r Hr) as [r1 [E [H1 En]]].
  now rewrite E, (NoDup_map_injective Appliance df N r1 r H1 Hr En).
Qed.

Lemma first_cells_apply_rows (f : Row -> Series) (df : DataFrame) (a : string) :
  first_cells (apply_rows f df) a =
  match first_named df a with
  | Some r => Some (f r)
  | None => None
  end.
Proof.
  unfold first_cells, first_named, apply_rows.
  induction df as [|r df IH]; cbn [map find appliance]; [reflexivity|].
  destruct (String.eqb (Appliance r) a); [reflexivity|exact IH].
Qed.

Lemma positive_dec (x : Q) :
  (if Qlt_le_dec 0 x then true else false) = positive x.
Proof.
  unfold positive; destruct (Qlt_le_dec 0 x) as [H|H].
  - destruct (Qle_bool x 0) eqn:E; [|reflexivity].
    apply Qle_bool_iff in E; lra.
  - apply Qle_bool_iff in H; now rewrite H.
Qed.

Lemma zip_with_maps {A B C D : Type}
  (f : B -> C -> D) (g : A -> B) (h : A -> C) (l : list A) :
  zip_with f (map g l) (map h l) = map (fun a => f (g a) (h a)) l.
Proof. induction l; cbn; congruence. Qed.

(** ** The daily-energy bar chart *)

Lemma daily_energy_bars_unique (df l : DataFrame) :
  (forall r, In r l -> first_named df (Appliance r) = Some r) ->
  daily_energy_bars df (map Appliance l) =
  Some (map (fun r => (Appliance r, TotalDailyEnergy r, lower (Priority r)))
            (filter (fun r => positive (TotalDailyEnergy r)) l)).
Proof.
  induction l as [|r l IH]; intros H; cbn [map daily_energy_bars filter];
    [reflexivity|].
  rewrite (H r (or_introl eq_refl)); cbn [bind].
  rewrite IH by (intros r' Hr'; apply H; now right).
  rewrite <- positive_dec.
  destruct (Qlt_le_dec 0 (TotalDailyEnergy r)); reflexivity.
Qed.

Lemma bar_chart_of_unique_names (df : DataFrame) :
  NoDup (map Appliance df) ->
  let shown := filter (fun r => positive (TotalDailyEnergy r)) df in
  create_daily_energy_bar_chart df =
  Some (if empty shown then None
        else Some
          {| bar_x := map Appliance shown;
             y_essential :=
               map (fun r => if String.eqb (lower (Priority r)) "essential"
                             then TotalDailyEnergy r else 0) shown;
             y_medium :=
               map (fun r => if String.eqb (lower (Priority r)) "medium"
                             then TotalDailyEnergy r else 0) shown;
             y_non_ess :=
               map (fun r => if is_essential_or_medium r
                             then 0 else TotalDailyEnergy r) shown |}).
Proof.
  intros N; cbn zeta; unfold create_daily_energy_bar_chart.
  rewrite (daily_energy_bars_unique df df (first_named_unique df N)).
  cbn [bind]; rewrite !map_map; cbn [fst snd]; rewrite !zip_with_maps.
  rewrite (map_ext
             (fun r => if negb (isin (lower (Priority r))
                                  ["essential"; "medium"]%string)
                       then TotalDailyEnergy r else 0)
             (fun r => if is_essential_or_medium r
                       then 0 else TotalDailyEnergy r))
    by (intros r; unfold is_essential_or_medium; now destruct (isin _ _)).
  now destruct (filter _ df).
Qed.

(** X10. On a table whose appliance names are pairwise distinct the bar chart
    is [None] when no record has a positive daily energy; otherwise it has one
    bar per record with a positive daily energy, in table order, of that
    height, carried by the series of its lower-cased priority: "essential",
    "medium", or the third series for any other priority. *)
Theorem daily_energy_bar_chart_unique_names (df : DataFrame) :
  NoDup (map Appliance df) ->
  let shown := filter (fun r => positive (TotalDailyEnergy r)) df in
  create_daily_energy_bar_chart df =
  Some (if empty shown then None
        else Some
          {| bar_x := map Appliance shown;
             y_essential :=
               map (fun r => if String.eqb (lower (Priority r)) "essential"
                             then TotalDailyEnergy r else 0) shown;
             y_medium :=
               map (fun r => if String.eqb (lower (Priority r)) "medium"
                             then TotalDailyEnergy r else 0) shown;
             y_non_ess :=
               map (fun r => if is_essential_or_medium r
                             then 0 else TotalDailyEnergy r) shown |}).
Proof. exact (bar_chart_of_unique_names df). Qed.

(** The rule at the table [run] builds from the scenario record and the
    geyser. *)
Lemma daily_energy_bar_chart_unique_names_witness :
  NoDup (map Appliance (table [scenario_row; geyser_row])) /\
  exists fig,
    create_daily_energy_bar_chart (table [scenario_row; geyser_row]) =
      Some (Some fig) /\
    bar_x fig = ["Lamp"; "Geyser"]%string.
Proof.
  assert (NoDup (map Appliance (table [scenario_row; geyser_row]))) as N.
  { cbn; repeat constructor; cbn; intuition discriminate. }
  split; [exact N|].
  eexists; split.
  - rewrite (daily_energy_bar_chart_unique_names _ N); reflexivity.
  - reflexivity.
Defined.




(** ** The time-series charts *)

Lemma amax_positive_iff (l : list Q) (m : Q) :
  amax l = Some m -> (0 < m <-> Exists (fun x => 0 < x) l).
Proof.
  intros E; apply amax_spec in E; destruct E as [Hin Hall]; split.
  - intros Hm; apply Exists_exists; eauto.
  - intros Hex; apply Exists_exists in Hex; destruct Hex as [x [Hx Hpos]].
    rewrite Forall_forall in Hall; specialize (Hall x Hx); lra.
Qed.

Lemma average_power_positive (r : Row) :
  (0 <= Quantity r)%Z -> 0 <= Power r ->
  (Exists (fun x => 0 < x) (compute_average_power time_periods r) <->
   draws_power r = true).
Proof.
  intros Hq Hp; unfold draws_power, compute_average_power.
  rewrite Exists_exists, !andb_true_iff, existsb_exists, Z.ltb_lt,
    negb_true_iff; split.
  - intros [x [Hx Hpos]]; apply in_map_iff in Hx; destruct Hx as [t [<- Ht]].
    cbn zeta in Hpos.
    destruct (On r t) eqn:Eon; cbn [int] in Hpos;
      [change (inject_Z 1) with 1 in Hpos|
       change (inject_Z 0) with 0 in Hpos; exfalso; lra].
    assert (0 < Quantity r)%Z as Hq'.
    { destruct (Z.eq_dec (Quantity r) 0) as [E0|]; [|lia].
      rewrite E0 in Hpos; change (inject_Z 0) with 0 in Hpos; exfalso; lra. }
    assert (0 < Power r) as Hp'.
    { destruct (Qlt_le_dec 0 (Power r)) as [|Hle]; [assumption|exfalso].
      assert (Power r == 0) as E0 by lra.
      rewrite E0 in Hpos; lra. }
    repeat split; [exact Hq'| |eauto].
    destruct (Qle_bool (Power r) 0) eqn:Eb; [|reflexivity].
    apply Qle_bool_iff in Eb; lra.
  - intros [[Hq' Hp'] [t [Ht Eon]]].
    exists (inject_Z (Quantity r) * Power r * inject_Z (int (On r t))).
    split; [apply in_map_iff; eauto|].
    rewrite Eon; cbn [int]; change (inject_Z 1) with 1.
    assert (0 < Power r) as Hp''.
    { destruct (Qlt_le_dec 0 (Power r)) as [|Hle]; [assumption|].
      apply Qle_bool_iff in Hle; congruence. }
    assert (0 < inject_Z (Quantity r)) as Hq''
        by (change 0 with (inject_Z 0); now rewrite <- Zlt_Qlt).
    rewrite Qmult_1_r; now apply Qmult_lt_0_compat.
Qed.

Lemma average_power_amax (r : Row) :
  (0 <= Quantity r)%Z -> 0 <= Power r ->
  exists m,
    amax (compute_average_power time_periods r) = Some m /\
    (if Qlt_le_dec 0 m then true else false) = draws_power r.
Proof.
  intros Hq Hp.
  destruct (amax (compute_average_power time_periods r)) as [m|] eqn:E;
    [|discriminate E].
  exists m; split; [reflexivity|].
  pose proof (amax_positive_iff _ _ E) as H1.
  pose proof (average_power_positive r Hq Hp) as H2.
  destruct (Qlt_le_dec 0 m) as [Hm|Hm].
  - symmetry; apply H2, H1, Hm.
  - destruct (draws_power r); [|reflexivity].
    exfalso; assert (0 < m) by (apply H1, H2; reflexivity); lra.
Qed.

Lemma time_series_traces_unique
  (palette : nat) (df : DataFrame) (l : list Row) :
  (forall r, In r l ->
             first_named df (Appliance r) = Some r /\
             (0 <= Quantity r)%Z /\ 0 <= Power r) ->
  forall i,
    time_series_traces palette
      (apply_rows (compute_average_power time_periods) df) i
      (map Appliance l) =
    Some (map (fun ir =>
                 {| trace_name := Appliance (snd ir);
                    trace_y := compute_average_power time_periods (snd ir);
                    trace_color := (fst ir mod palette)%nat |})
              (filter (fun ir => draws_power (snd ir))
                      (combine (seq i (List.length l)) l))).
Proof.
  induction l as [|r l IH]; intros H i;
    cbn [map time_series_traces List.length seq combine filter];
    [reflexivity|].
  destruct (H r (or_introl eq_refl)) as [E [Hq Hp]].
  rewrite first_cells_apply_rows, E; cbn [bind].
  destruct (average_power_amax r Hq Hp) as [m [Em Ed]].
  rewrite Em; cbn [bind snd]; rewrite <- Ed.
  rewrite IH by (intros r' Hr'; apply H; now right).
  destruct (Qlt_le_dec 0 m); reflexivity.
Qed.

Lemma validated_names (raw : DataFrame) :
  map Appliance (validated raw) = map Appliance raw.
Proof. unfold validated, validate_df; now rewrite !map_map. Qed.

Lemma apply_rows_names (f : Row -> Series) (df : DataFrame) :
  map appliance (apply_rows f df) = map Appliance df.
Proof. unfold apply_rows; now rewrite map_map. Qed.

(** X12. When the appliance names are pairwise distinct, the time-series
    chart of the validated table has one line per record that draws power
    (quantity and power positive, some period scheduled), in table order,
    carrying that record's average-power row; the colour of a line is the
    position of its record in the whole table modulo the palette length, so
    records without a line still use up colours. *)
Theorem time_series_chart_unique_names (palette : nat) (raw : DataFrame) :
  NoDup (map Appliance raw) ->
  create_time_series_chart palette
    (apply_rows (compute_average_power time_periods) (validated raw)) =
  Some (map (fun ir =>
               {| trace_name := Appliance (snd ir);
                  trace_y := compute_average_power time_periods (snd ir);
                  trace_color := (fst ir mod palette)%nat |})
            (filter (fun ir => draws_power (snd ir))
                    (enumerate (validated raw)))).
Proof.
  intros N; unfold create_time_series_chart, enumerate.
  rewrite apply_rows_names.
  apply time_series_traces_unique; intros r Hr; split.
  - apply first_named_unique; [now rewrite validated_names|exact Hr].
  - pose proof (validated_valid raw) as V; rewrite Forall_forall in V.
    destruct (V r Hr); auto.
Qed.

(** The rule at a table of an idle record followed by the scenario record,
    with a palette of 32 colours: one line, in the second colour. *)
Lemma time_series_chart_unique_names_witness :
  NoDup (map Appliance [idle_row; scenario_row]) /\
  exists y,
    create_time_series_chart 32
      (apply_rows (compute_average_power time_periods)
         (validated [idle_row; scenario_row])) =
    Some [{| trace_name := "Lamp"; trace_y := y; trace_color := 1 |}].
Proof.
  assert (NoDup (map Appliance [idle_row; scenario_row])) as N.
  { cbn; repeat constructor; cbn; intuition discriminate. }
  split; [exact N|].
  eexists.
  rewrite (time_series_chart_unique_names 32 [idle_row; scenario_row] N).
  reflexivity.
Defined.

Lemma stacked_traces_total (energy_df : PeriodFrame) (l : PeriodFrame) :
  (forall e, In e l -> In e energy_df) ->
  exists traces,
    stacked_traces energy_df (map appliance l) = Some traces /\
    map fst traces = map appliance l /\
    Forall (fun ny => first_cells energy_df (fst ny) = Some (snd ny)) traces.
Proof.
  induction l as [|e l IH]; intros H; cbn [map stacked_traces].
  - exists []; repeat split; constructor.
  - destruct IH as [traces [E [En HF]]]; [intros e' He'; apply H; now right|].
    destruct (first_cells energy_df (appliance e)) as [y|] eqn:Ey.
    + rewrite E; cbn [bind]; eexists; split; [reflexivity|].
      cbn [map fst]; split; [now rewrite En|now constructor].
    + exfalso; unfold first_cells in Ey.
      destruct (find _ energy_df) eqn:Ef; [discriminate Ey|].
      pose proof (find_none _ _ Ef e (H e (or_introl eq_refl))) as Hn.
      cbn beta in Hn; now rewrite String.eqb_refl in Hn.
Qed.

(** X13. On every energy table whose rows all carry an appliance name (as
    every [PeriodRow] does; the names need not be distinct) each look-up by
    name of the stacked energy chart finds a row: the chart has one series per
    row, named after the rows in table order, and the series of a row carries
    the cells of the first row of the table under that name (rows sharing a
    name are drawn with the same data). *)
Theorem stacked_energy_chart_total (energy_df : PeriodFrame) :
  exists traces,
    create_stacked_energy_chart energy_df = Some traces /\
    map fst traces = map appliance energy_df /\
    Forall (fun ny => first_cells energy_df (fst ny) = Some (snd ny)) traces.
Proof. apply stacked_traces_total; auto. Qed.

Lemma time_series_traces_total
  (palette : nat) (df : DataFrame) (l : list string) :
  (forall a, In a l -> exists r, first_named df a = Some r) ->
  forall i, exists traces,
    time_series_traces palette
      (apply_rows (compute_average_power time_periods) df) i l = Some traces.
Proof.
  induction l as [|a l IH]; intros H i; cbn [time_series_traces];
    [eauto|].
  destruct (H a (or_introl eq_refl)) as [r E].
  rewrite first_cells_apply_rows, E; cbn [bind].
  destruct (amax (compute_average_power time_periods r)) as [m|] eqn:Em;
    [|discriminate Em].
  cbn [bind].
  destruct (IH (fun a' Ha' => H a' (or_intror Ha')) (S i)) as [traces Et].
  rewrite Et; destruct (Qlt_le_dec 0 m); cbn [bind]; eauto.
Qed.

Lemma names_found (df : DataFrame) :
  forall a, In a (map Appliance df) ->
            exists r, first_named df a = Some r /\ In r df.
Proof.
  intros a Ha; apply in_map_iff in Ha; destruct Ha as [r [<- Hr]].
  destruct (first_named_found df r Hr) as [r1 [E [H1 _]]]; eauto.
Qed.

Lemma filtered_traces_spec (fdf : DataFrame) (l : list string) :
  (forall a, In a l -> exists r, first_named fdf a = Some r /\ In r fdf) ->
  exists traces,
    filtered_traces fdf
      (apply_rows (compute_average_power time_periods) fdf) l = Some traces /\
    Forall (fun tr =>
              exists r,
                In r fdf /\
                Appliance r = ft_appliance tr /\
                Priority r = ft_priority tr /\
                ft_color tr =
                  (if String.eqb (Priority r) "essential" then "#FF6B6B"
                   else if String.eqb (Priority r) "medium" then "#FFD93D"
                        else "#45B7D1")%string /\
                Exists (fun x => 0 < x) (ft_y tr))
           traces.
Proof.
  induction l as [|a l IH]; intros H; cbn [filtered_traces].
  - exists []; split; [reflexivity|constructor].
  - destruct IH as [traces [Et HF]]; [intros a' Ha'; apply H; now right|].
    destruct (H a (or_introl eq_refl)) as [r [E Hr]].
    rewrite first_cells_apply_rows, E; cbn [bind].
    destruct (amax (compute_average_power time_periods r)) as [m|] eqn:Em;
      [|discriminate Em].
    cbn [bind]; rewrite Et.
    destruct (Qlt_le_dec 0 m) as [Hm|Hm]; cbn [bind]; [|eauto].
    eexists; split; [reflexivity|constructor; [|exact HF]].
    exists r; cbn [ft_appliance ft_priority ft_color ft_y].
    apply find_some in E; destruct E as [_ En]; apply String.eqb_eq in En.
    repeat split; trivial.
    now apply (amax_positive_iff _ _ Em).
Qed.

Lemma shown_priority_colour (se sm sn : bool) (p : string) :
  In p (priorities_to_show se sm sn) ->
  let colour :=
    (if String.eqb p "essential" then "#FF6B6B"
     else if String.eqb p "medium" then "#FFD93D" else "#45B7D1")%string in
  (p = "essential"%string /\ colour = "#FF6B6B"%string) \/
  (p = "medium"%string /\ colour = "#FFD93D"%string) \/
  (p = "non-essential"%string /\ colour = "#45B7D1"%string).
Proof.
  unfold priorities_to_show; intros Hin; cbn zeta.
  apply in_app_or in Hin; destruct Hin as [Hin|Hin];
    [|apply in_app_or in Hin; destruct Hin as [Hin|Hin]].
  - destruct se; [|destruct Hin]; destruct Hin as [<-|[]]; now left.
  - destruct sm; [|destruct Hin]; destruct Hin as [<-|[]]; right; now left.
  - destruct sn; [|destruct Hin]; destruct Hin as [<-|[]]; right; now right.
Qed.

(** X14. For the tables of [run] whose records all carry an appliance name
    (as every [Row] does) and any state of the three check-boxes, each look-up
    by name of the time-series page finds a record, so the page is built.  With
    no box ticked there is no filtered chart.  Otherwise every line of the filtered chart
    belongs to a record of the table whose priority is, letter for letter, one
    of the ticked labels (a priority spelled in another case is never drawn),
    has a positive value in some period, and is red for "essential", yellow for
    "medium" and blue for "non-essential". *)
Theorem filtered_chart_priorities
  (palette : nat) (raw : DataFrame) (se sm sn : bool) :
  exists timeseries filtered,
    _display_time_series_charts palette (table raw)
      (apply_rows (compute_average_power time_periods) (validated raw))
      se sm sn = Some (timeseries, filtered) /\
    (((se || sm || sn) = false /\ filtered = None) \/
     (exists traces,
         filtered = Some traces /\
         Forall (fun tr =>
                   In (ft_priority tr) (priorities_to_show se sm sn) /\
                   ((ft_priority tr = "essential"%string /\
                     ft_color tr = "#FF6B6B"%string) \/
                    (ft_priority tr = "medium"%string /\
                     ft_color tr = "#FFD93D"%string) \/
                    (ft_priority tr = "non-essential"%string /\
                     ft_color tr = "#45B7D1"%string)) /\
                   Exists (fun x => 0 < x) (ft_y tr) /\
                   exists r,
                     In r (table raw) /\
                     Appliance r = ft_appliance tr /\
                     Priority r = ft_priority tr)
                traces)).
Proof.
  unfold _display_time_series_charts, create_time_series_chart.
  rewrite apply_rows_names.
  destruct (time_series_traces_total palette (validated raw)
              (map Appliance (validated raw))
              (fun a Ha => let '(ex_intro _ r (conj E _)) :=
                             names_found (validated raw) a Ha in
                           ex_intro _ r E) 0%nat) as [main Em].
  rewrite Em; cbn [bind].
  destruct (se || sm || sn) eqn:Eb; [|eexists _, _; split; eauto].
  set (fdf := filter _ (table raw)).
  unfold _create_filtered_time_series_chart; rewrite apply_rows_names.
  destruct (filtered_traces_spec fdf (map Appliance fdf) (names_found fdf))
    as [traces [Et HF]].
  rewrite Et; cbn [bind]; eexists _, _; split; [reflexivity|right].
  exists traces; split; [reflexivity|].
  eapply Forall_impl; [|exact HF]; cbn beta.
  intros tr [r [Hr [En [Ep [Ec Hpos]]]]].
  apply filter_In in Hr; destruct Hr as [Hr Hin]; apply isin_In in Hin.
  pose proof (shown_priority_colour se sm sn (Priority r) Hin) as Hc.
  cbn zeta in Hc; rewrite <- Ec, Ep in Hc.
  split; [now rewrite <- Ep|split; [exact Hc|split; [exact Hpos|eauto]]].
Qed.

(** ** Real and apparent peak *)

Lemma valid_nameplate_gap (r : Row) :
  Valid r ->
  0 <= inject_Z (Quantity r) /\
  nameplate_real r <=
    nameplate_apparent r + (1 # 20) * inject_Z (Quantity r).
Proof.
  intros [Hq Hp _ Hf _ Ha]; unfold nameplate_real, nameplate_apparent.
  pose proof (inject_Z_nonneg _ Hq) as Hq'; split; [exact Hq'|].
  pose proof (ratio_ge _ _ Hp Hf) as Hr.
  pose proof (round_1_near (Power r / PowerFactor r)) as [Hn _].
  rewrite <- Ha in Hn.
  assert (Power r <= ApparentPower r + (1 # 20)) as Hgap by lra.
  assert (inject_Z (Quantity r) * Power r <=
          inject_Z (Quantity r) * (ApparentPower r + (1 # 20))) as H.
  { rewrite !(Qmult_comm (inject_Z (Quantity r))).
    now apply Qmult_le_compat_r. }
  lra.
Qed.

Lemma interval_load_gap (df : DataFrame) (t : Period) :
  Forall Valid df ->
  interval_load nameplate_real df t <=
    interval_load nameplate_apparent df t + (1 # 20) * units df.
Proof.
  unfold interval_load, units, Qsum.
  induction 1 as [|r df Hv _ IH]; cbn [map fold_right]; [lra|].
  destruct (valid_nameplate_gap r Hv) as [Hq Hg].
  destruct (On r t); cbn [is_on]; lra.
Qed.

(** X15. For the table of [run] both unfiltered peaks are non-negative, and
    the apparent peak is at least the real peak less 0.05 VA for every unit
    in the table (the loss the rounding of the apparent power can cause). *)
Theorem apparent_peak_near_real_peak (raw : DataFrame) :
  exists peak_load_real peak_load_apparent,
    calculate_peak_loads time_periods (table raw) =
      Some (peak_load_real, peak_load_apparent) /\
    0 <= peak_load_real /\ 0 <= peak_load_apparent /\
    peak_load_real - (1 # 20) * units (table raw) <= peak_load_apparent.
Proof.
  destruct (peak_loads_are_maxima (table raw))
    as [pr [pa [E [[[t [Ht Et]] Hr] [[t' [Ht' Et']] Ha]]]]].
  exists pr, pa; split; [exact E|].
  pose proof (table_valid raw) as V.
  split; [|split].
  - rewrite Et; apply interval_load_nonneg.
    eapply Forall_impl; [|exact V]; cbn; intros r Hv.
    pose proof (valid_use_time_real r Hv); tauto.
  - rewrite Et'; apply interval_load_nonneg.
    eapply Forall_impl; [|exact V]; cbn; intros r Hv.
    pose proof (valid_use_time_apparent r Hv); tauto.
  - pose proof (interval_load_gap (table raw) t V) as Hg.
    specialize (Ha t Ht); lra.
Qed.

(** ** Warning and bar chart together *)

Lemma table_names (raw : DataFrame) :
  map Appliance (table raw) = map Appliance raw.
Proof. rewrite table_rows, map_map; reflexivity. Qed.

Lemma table_energy_nonneg (raw : DataFrame) :
  Forall (fun r => 0 <= TotalDailyEnergy r) (table raw).
Proof.
  rewrite table_rows, Forall_map, Forall_forall; intros r0 _.
  cbn [TotalDailyEnergy set_total_daily_energy].
  apply Qsum_nonneg, compute_energy_nonneg.
  pose proof (validated_valid [r0]) as V; now inversion V.
Qed.

(** X16. When the appliance names are pairwise distinct, the zero-energy
    warning and the bar chart split the table between them: every appliance
    is either named in the warning or has a bar, never both, so the warned
    names followed by the bar names are a rearrangement of the table's
    names. *)
Theorem warning_and_bars_partition (raw : DataFrame) :
  NoDup (map Appliance raw) ->
  exists res,
    create_daily_energy_bar_chart (table raw) = Some res /\
    Permutation
      (zero_energy_appliances (table raw) ++ bar_names res)
      (map Appliance raw) /\
    NoDup (zero_energy_appliances (table raw) ++ bar_names res).
Proof.
  intros N.
  assert (NoDup (map Appliance (table raw))) as N'
      by now rewrite table_names.
  rewrite (bar_chart_of_unique_names (table raw) N'); cbn zeta.
  eexists; split; [reflexivity|].
  assert (bar_names
            (if empty (filter (fun r => positive (TotalDailyEnergy r))
                              (table raw))
             then None
             else Some
               {| bar_x :=
                    map Appliance
                      (filter (fun r => positive (TotalDailyEnergy r))
                              (table raw));
                  y_essential :=
                    map (fun r =>
                           if String.eqb (lower (Priority r)) "essential"
                           then TotalDailyEnergy r else 0)
                        (filter (fun r => positive (TotalDailyEnergy r))
                                (table raw));
                  y_medium :=
                    map (fun r =>
                           if String.eqb (lower (Priority r)) "medium"
                           then TotalDailyEnergy r else 0)
                        (filter (fun r => positive (TotalDailyEnergy r))
                                (table raw));
                  y_non_ess :=
                    map (fun r =>
                           if is_essential_or_medium r
                           then 0 else TotalDailyEnergy r)
                        (filter (fun r => positive (TotalDailyEnergy r))
                                (table raw)) |}) =
          map Appliance
            (filter (fun r => negb (Qeq_bool (TotalDailyEnergy r) 0))
                    (table raw))) as ->.
  { assert (filter (fun r => positive (TotalDailyEnergy r)) (table raw) =
            filter (fun r => negb (Qeq_bool (TotalDailyEnergy r) 0))
                   (table raw)) as ->.
    { apply filter_ext_in; intros r Hr.
      pose proof (table_energy_nonneg raw) as Hn.
      rewrite Forall_forall in Hn; specialize (Hn r Hr).
      unfold positive; f_equal; apply eq_true_iff_eq.
      rewrite Qle_bool_iff, Qeq_bool_iff; split; intros; lra. }
    now destruct (filter _ (table raw)). }
  unfold zero_energy_appliances; rewrite <- map_app.
  assert (Permutation
            (map Appliance
               (filter (fun r => Qeq_bool (TotalDailyEnergy r) 0) (table raw)
                ++ filter (fun r => negb (Qeq_bool (TotalDailyEnergy r) 0))
                     (table raw)))
            (map Appliance raw)) as HP.
  { rewrite <- (table_names raw); apply Permutation_map; symmetry.
    apply (filter_split_permutation
             (fun r => Qeq_bool (TotalDailyEnergy r) 0)). }
  split; [exact HP|].
  eapply Permutation_NoDup; [symmetry; exact HP|exact N].
Qed.

(** The rule at the table [run] builds from an idle record and the scenario
    record. *)
Lemma warning_and_bars_partition_witness :
  NoDup (map Appliance [idle_row; scenario_row]) /\
  zero_energy_appliances (table [idle_row; scenario_row]) = ["Spare"%string] /\
  exists res,
    create_daily_energy_bar_chart (table [idle_row; scenario_row]) = Some res /\
    Permutation
      (zero_energy_appliances (table [idle_row; scenario_row]) ++ bar_names res)
      (map Appliance [idle_row; scenario_row]).
Proof.
  assert (NoDup (map Appliance [idle_row; scenario_row])) as N.
  { cbn; repeat constructor; cbn; intuition discriminate. }
  split; [exact N|split; [reflexivity|]].
  destruct (warning_and_bars_partition [idle_row; scenario_row] N)
    as [res [E [HP _]]].
  exists res; split; assumption.
Defined.

(** ** Records that contribute nothing *)

Lemma table_cons (r0 : Row) (raw : DataFrame) :
  table (r0 :: raw) =
  (let r := with_apparent_power (validate_row r0) in
   set_total_daily_energy r (Qsum (compute_energy time_periods r)))
  :: table raw.
Proof. now rewrite !table_rows. Qed.

Lemma clipZ_nonpositive (q : Z) : (q <= 0)%Z -> clipZ q 0 = 0%Z.
Proof. unfold clipZ; destruct (Z.ltb_spec q 0); lia. Qed.

Lemma Qsum_all_zero (l : list Q) : Forall (fun x => x == 0) l -> Qsum l == 0.
Proof.
  unfold Qsum; induction 1 as [|x l Hx _ IH]; cbn [fold_right];
    [reflexivity|rewrite Hx, IH; ring].
Qed.

(** X17. A record whose quantity is zero or negative, or that is scheduled in
    no period, contributes nothing: adding it to the edited table leaves the
    total daily energy and both unfiltered peaks as they were. *)
Theorem idle_record_contributes_nothing (r0 : Row) (raw : DataFrame) :
  (Quantity r0 <= 0)%Z \/ (forall t, On r0 t = false) ->
  total_energy (r0 :: raw) == total_energy raw /\
  exists pr pa pr' pa',
    calculate_peak_loads time_periods (table raw) = Some (pr, pa) /\
    calculate_peak_loads time_periods (table (r0 :: raw)) = Some (pr', pa') /\
    pr' == pr /\ pa' == pa.
Proof.
  intros Hidle.
  set (r := with_apparent_power (validate_row r0)).
  assert (forall t, inject_Z (Quantity r) * is_on (On r t) == 0) as Hz.
  { intros t; cbn [r Quantity On with_apparent_power validate_row].
    destruct Hidle as [Hq|Hoff].
    - rewrite (clipZ_nonpositive _ Hq); change (inject_Z 0) with 0; ring.
    - rewrite Hoff; cbn [is_on]; ring. }
  split.
  - unfold total_energy; rewrite table_cons; fold r; clearbody r.
    unfold Qsum at 1; cbn [map fold_right TotalDailyEnergy
                             set_total_daily_energy].
    fold (Qsum (map TotalDailyEnergy (table raw))).
    rewrite Qsum_all_zero; [ring|].
    unfold compute_energy; rewrite Forall_map, Forall_forall; intros t _.
    cbn zeta; rewrite inject_Z_mult, inject_int; change (inject_Z 2) with 2.
    transitivity (2 * Power r * (DutyCycle r / 100)
                  * (UseTime r / 100)
                  * (inject_Z (Quantity r) * is_on (On r t))); [ring|].
    rewrite Hz; ring.
  - destruct (peak_loads_are_maxima (table raw))
      as [pr [pa [E [Hr Ha]]]].
    destruct (peak_loads_are_maxima (table (r0 :: raw)))
      as [pr' [pa' [E' [Hr' Ha']]]].
    exists pr, pa, pr', pa'; split; [exact E|split; [exact E'|]].
    assert (forall (w : Row -> Q) (c : Row -> Q),
               (forall x, w x = inject_Z (Quantity x) * c x) ->
               forall t,
                 interval_load w (table (r0 :: raw)) t ==
                 interval_load w (table raw) t) as Hload.
    { intros w c Hw t; rewrite table_cons; fold r; clearbody r.
      unfold interval_load, Qsum; cbn [map fold_right].
      rewrite Hw; cbn [Quantity On set_total_daily_energy].
      set (cx := c _); set (rest := fold_right Qplus 0 (map _ (table raw))).
      transitivity (cx * (inject_Z (Quantity r) * is_on (On r t)) + rest);
        [ring|rewrite Hz; ring]. }
    pose proof (Hload nameplate_real Power (fun x => eq_refl)) as Lr.
    pose proof (Hload nameplate_apparent ApparentPower (fun x => eq_refl)) as La.
    split; apply Qle_antisym.
    + apply (is_max_over_le _ _ _ _ _ Hr' Hr); intros t; rewrite Lr;
        apply Qle_refl.
    + apply (is_max_over_le _ _ _ _ _ Hr Hr'); intros t; rewrite Lr;
        apply Qle_refl.
    + apply (is_max_over_le _ _ _ _ _ Ha' Ha); intros t; rewrite La;
        apply Qle_refl.
    + apply (is_max_over_le _ _ _ _ _ Ha Ha'); intros t; rewrite La;
        apply Qle_refl.
Qed.

(** The rule for the record without units added to the scenario table. *)
Lemma idle_record_contributes_nothing_witness :
  ((Quantity idle_row <= 0)%Z \/ (forall t, On idle_row t = false)) /\
  total_energy [idle_row; scenario_row] == total_energy [scenario_row].
Proof.
  assert ((Quantity idle_row <= 0)%Z \/ (forall t, On idle_row t = false))
    as H by (left; cbn; lia).
  split; [exact H|].
  exact (proj1 (idle_record_contributes_nothing idle_row [scenario_row] H)).
Defined.

(** ** The tier energy is joined by name *)

Lemma energy_by_name_over_table (raw : DataFrame) (names : list string) :
  Qsum (map (fun e => Qsum (cells e))
          (filter (fun e => isin (appliance e) names) (energy_table raw))) ==
  Qsum (map TotalDailyEnergy
          (filter (fun r => isin (Appliance r) names) (table raw))).
Proof.
  set (g := fun r0 =>
              let r := with_apparent_power (validate_row r0) in
              set_total_daily_energy r (Qsum (compute_energy time_periods r))).
  set (h := fun r0 =>
              {| cells := compute_energy time_periods
                            (with_apparent_power (validate_row r0));
                 appliance := Appliance r0 |}).
  assert (table raw = map g raw) as -> by apply table_rows.
  assert (energy_table raw = map h raw) as ->.
  { unfold energy_table, apply_rows, validated, validate_df.
    now rewrite !map_map. }
  apply sum_filter_two_maps; intros r0 _; split; reflexivity.
Qed.

(** C10. In the blocks [run] shows, the energy total of a filtered tier is the
    sum of the daily energies of all the records of the table whose appliance
    name occurs among the names of the tier's records, whatever the priority of
    those records.  For the table holding an essential and a non-essential
    record both named "Heater" (100 Wh and 3000 Wh a day) and a non-essential
    "Geyser" (720 Wh), the essential-only block counts one record and shows
    3100 Wh: the non-essential heater is included, the geyser is not. *)
Theorem tier_energy_joined_by_name :
  (forall (raw : DataFrame) (k : Tier),
      exists S,
        run raw = Some S /\
        ((tier_rows k (table raw) = [] /\ block k S = NotShown) \/
         (exists s,
             block k S = Shown s /\
             total_energy_wh s ==
             Qsum (map TotalDailyEnergy
                     (filter (fun r =>
                                isin (Appliance r)
                                  (map Appliance (tier_rows k (table raw))))
                             (table raw)))))) /\
  (exists S s,
      run [heater_essential; heater_non_essential; geyser_row] = Some S /\
      essential_only S = Shown s /\
      map is_essential [heater_essential; heater_non_essential; geyser_row] =
        [true; false; false] /\
      map Appliance [heater_essential; heater_non_essential; geyser_row] =
        ["Heater"; "Heater"; "Geyser"]%string /\
      map (fun r => Qred (TotalDailyEnergy r))
          (table [heater_essential; heater_non_essential; geyser_row]) =
        [100; 3000; 720] /\
      record_count s = 1%nat /\
      total_energy_wh s == 3100 /\
      total_energy_wh (all_appliances S) == 3820).
Proof.
  split.
  - intros raw k.
    destruct (run_blocks raw) as [S [pr [pa [ES [_ [_ HB]]]]]].
    exists S; split; [exact ES|].
    specialize (HB k).
    destruct (tier_display_cases (tier_rows k (table raw)) (energy_table raw) pa)
      as [[E0 E]|[_ [qr [qa [_ [_ E]]]]]];
      rewrite E in HB; injection HB as <-.
    + now left.
    + right; eexists; split; [reflexivity|].
      cbn [total_energy_wh].
      rewrite tier_total_energy_by_name.
      apply energy_by_name_over_table.
  - eexists _, _; split; [vm_compute; reflexivity|].
    repeat (split; [reflexivity|]); reflexivity.
Qed.
